(** * LocationCheckins: the field/model layer and the Location repository

    A shallow embedding of [lib/models/base_model.py], [lib/models/location.py],
    [lib/models/model_helpers.py], [lib/clients/cass.py] and
    [lib/repositories/location.py], followed by the properties of the
    specification that concern them.

    Python objects are values of the type [value]; an entity's [_data]
    dictionary is a [gmap string value]; methods that mutate the entity return
    the updated entity; methods that can raise return a [result]. *)

From Stdlib Require Import ZArith String List Bool.
From Stdlib Require Import Floats.PrimFloat Floats.SpecFloat Floats.FloatOps.
From stdpp Require Import gmap strings list fin_maps.

Open Scope string_scope.
Open Scope Z_scope.

(** ** Exceptions and fallible computations *)

Inductive exn :=
| Exception (msg : string)
| TypeError (msg : string)
| KeyError (key : string)
| AttributeError (name : string)
| StorageError (msg : string).

Inductive result (A : Type) :=
| Ok (a : A)
| Raise (e : exn).
Arguments Ok {A} a.
Arguments Raise {A} e.

Definition rbind {A B} (r : result A) (k : A -> result B) : result B :=
  match r with
  | Ok a => k a
  | Raise e => Raise e
  end.

Notation "'try!' x := r 'in' k" := (rbind r (fun x => k))
  (at level 10, x name, r at level 100, k at level 200,
   format "'[v' 'try!'  x  :=  r  'in' '/' k ']'").

(** ** Python values *)

(** [dateutil.tz]: [tzutc()] and fixed offsets (seconds east of UTC). *)
Inductive tz :=
| tzutc
| tzoffset (seconds : Z).

Definition utcoffset (t : tz) : Z :=
  match t with
  | tzutc => 0
  | tzoffset s => s
  end.

(** A [datetime.datetime]: the naive wall-clock reading, counted in
    microseconds since [datetime.min], and the attached [tzinfo]. *)
Record datetime := {
  wall : Z;
  tzinfo : option tz
}.

(** [value.replace(tzinfo=t)] *)
Definition replace_tzinfo (d : datetime) (t : tz) : datetime :=
  {| wall := wall d; tzinfo := Some t |}.

(** Values that are not containers.  [SObject cls oid state] is an instance
    of a user class (a [JsonSerializableBase] subclass): class name, object
    identity, and the state its [to_json] renders. *)
Inductive scalar :=
| SNone
| SBool (b : bool)
| SInt (z : Z)
| SLong (z : Z)
| SFloat (f : float)
| SStr (s : string)
| SDateTime (d : datetime)
| SUuid (n : N)
| SObject (cls : string) (oid : N) (state : string).

(** Containers hold scalars (Cassandra collections do not nest). *)
Inductive value :=
| V (s : scalar)
| VList (l : list scalar)
| VDict (m : list (scalar * scalar))
| VOrderedMap (m : list (scalar * scalar))
| VSet (l : list scalar)
| Vsortedset (l : list scalar)
| VSortedSet (l : list scalar).

Abbreviation VNone := (V SNone).
Abbreviation VStr s := (V (SStr s)).
Abbreviation VFloat f := (V (SFloat f)).
Abbreviation VInt z := (V (SInt z)).
Abbreviation VBool b := (V (SBool b)).
Abbreviation VDateTime d := (V (SDateTime d)).
Abbreviation VUuid n := (V (SUuid n)).

(** [x is None] *)
Definition is_None (v : value) : bool :=
  match v with
  | VNone => true
  | _ => false
  end.

(** [bool(x)] *)
Definition scalar_truthy (s : scalar) : bool :=
  match s with
  | SNone => false
  | SBool b => b
  | SInt z | SLong z => negb (z =? 0)
  | SFloat f => negb (PrimFloat.eqb f 0%float)
  | SStr s => negb (String.eqb s "")
  | SDateTime _ => true
  | SUuid _ => true
  | SObject _ _ _ => true
  end.

Definition nonempty {A} (l : list A) : bool :=
  match l with
  | [] => false
  | _ :: _ => true
  end.

Definition truthy (v : value) : bool :=
  match v with
  | V s => scalar_truthy s
  | VList l | VSet l | Vsortedset l | VSortedSet l => nonempty l
  | VDict m | VOrderedMap m => nonempty m
  end.

(** The classes used as [BASE_TYPE] or in [isinstance] tests. *)
Inductive pytype :=
| t_bool
| t_int
| t_float
| t_basestring
| t_datetime
| t_dict
| t_list
| t_set
| t_sortedset
| t_SortedSet
| t_OrderedMap
| t_UUID
| t_class (name : string).

(** [isinstance(v, t)]; [bool] is a subclass of [int], [long] is not. *)
Definition isinstance (v : value) (t : pytype) : bool :=
  match t, v with
  | t_bool, VBool _ => true
  | t_int, VInt _ => true
  | t_int, VBool _ => true
  | t_float, VFloat _ => true
  | t_basestring, VStr _ => true
  | t_datetime, VDateTime _ => true
  | t_dict, VDict _ => true
  | t_list, VList _ => true
  | t_set, VSet _ => true
  | t_sortedset, Vsortedset _ => true
  | t_SortedSet, VSortedSet _ => true
  | t_OrderedMap, VOrderedMap _ => true
  | t_UUID, VUuid _ => true
  | t_class c, V (SObject c' _ _) => String.eqb c c'
  | _, _ => false
  end.

Arguments isinstance : simpl never.

(** *** Comparison ([==] and [!=]) *)

(** An [int]/[long] against a [float]: compared exactly. *)
Definition int_float_eq (z : Z) (f : float) : bool :=
  match Prim2SF f with
  | S754_zero _ => z =? 0
  | S754_finite s m e =>
      let v := if s then Z.neg m else Z.pos m in
      if 0 <=? e then z =? v * 2 ^ e else z * 2 ^ (- e) =? v
  | _ => false
  end.

Definition as_integer (s : scalar) : option Z :=
  match s with
  | SBool b => Some (if b then 1 else 0)
  | SInt z | SLong z => Some z
  | _ => None
  end.

(** Absolute time of an aware datetime, in microseconds. *)
Definition utc_micros (w : Z) (t : tz) : Z := w - utcoffset t * 1000000.

(** [a == b] on scalars.  Python 2 raises [TypeError] when a naive datetime
    meets an aware one; floats compare as IEEE 754 doubles, so a NaN differs
    from itself; objects compare by identity. *)
Definition scalar_eq (a b : scalar) : result bool :=
  match a, b with
  | SNone, SNone => Ok true
  | SStr x, SStr y => Ok (String.eqb x y)
  | SFloat x, SFloat y => Ok (PrimFloat.eqb x y)
  | SUuid x, SUuid y => Ok (N.eqb x y)
  | SObject _ i _, SObject _ j _ => Ok (N.eqb i j)
  | SDateTime x, SDateTime y =>
      match tzinfo x, tzinfo y with
      | None, None => Ok (wall x =? wall y)
      | Some tx, Some ty => Ok (utc_micros (wall x) tx =? utc_micros (wall y) ty)
      | _, _ => Raise (TypeError "can't compare offset-naive and offset-aware datetimes")
      end
  | _, _ =>
      match as_integer a, as_integer b, a, b with
      | Some x, Some y, _, _ => Ok (x =? y)
      | Some x, None, _, SFloat y => Ok (int_float_eq x y)
      | None, Some y, SFloat x, _ => Ok (int_float_eq y x)
      | _, _, _, _ => Ok false
      end
  end.

(** Element-wise comparison of two sequences. *)
Fixpoint seq_eq (l1 l2 : list scalar) : result bool :=
  match l1, l2 with
  | [], [] => Ok true
  | x :: l1', y :: l2' =>
      try! b := scalar_eq x y in
      if b then seq_eq l1' l2' else Ok false
  | _, _ => Ok false
  end.

(** Key lookup in a mapping (a comparison that raises counts as a miss). *)
Fixpoint dict_get (k : scalar) (m : list (scalar * scalar)) : option scalar :=
  match m with
  | [] => None
  | (k', v) :: m' =>
      match scalar_eq k k' with
      | Ok true => Some v
      | _ => dict_get k m'
      end
  end.

(** Every entry of [m1] has an equal entry in [m2]. *)
Fixpoint dict_le (m1 m2 : list (scalar * scalar)) : result bool :=
  match m1 with
  | [] => Ok true
  | (k, v) :: m1' =>
      match dict_get k m2 with
      | None => Ok false
      | Some v' =>
          try! b := scalar_eq v v' in
          if b then dict_le m1' m2 else Ok false
      end
  end.

Definition set_mem (x : scalar) (l : list scalar) : bool :=
  existsb (fun y => match scalar_eq x y with Ok true => true | _ => false end) l.

Definition set_eq (l1 l2 : list scalar) : bool :=
  (length l1 =? length l2)%nat && forallb (fun x => set_mem x l2) l1.

(** [a == b]: mappings and sets by content, sequences element-wise. *)
Definition py_eq (a b : value) : result bool :=
  match a, b with
  | V x, V y => scalar_eq x y
  | VList x, VList y => seq_eq x y
  | (VDict x | VOrderedMap x), (VDict y | VOrderedMap y) =>
      if (length x =? length y)%nat then dict_le x y else Ok false
  | (VSet x | Vsortedset x | VSortedSet x), (VSet y | Vsortedset y | VSortedSet y) =>
      Ok (set_eq x y)
  | _, _ => Ok false
  end.

(** [a != b] *)
Definition py_ne (a b : value) : result bool :=
  try! b := py_eq a b in Ok (negb b).

(** ** Field descriptors ([lib/models/base_model.py]) *)

(** [json.loads] and [json.dumps] of the standard library. *)
Class Json := {
  json_loads : string -> result value;
  json_dumps : value -> result value
}.

(** A wrapper class handed to [JsonWrappedClassField]. *)
Record wrapper := {
  wrapper_name : string;
  inherits_JsonSerializableBase : bool;
  from_json : string -> result value;
  to_json : value -> result value
}.

Inductive FieldClass :=
| Field
| BooleanField
| DateTimeField
| IntegerField
| FloatField
| JsonWrappedClassField
| JsonDataField
| StringField
| MapField
| SetField
| UuidField.

(** A descriptor object.  [columnname = ""] stands for a name that was not
    given ([None]); [ModelMeta] treats both alike.  [_default_fn] is the
    value the nullary default function returns. *)
Record descriptor := {
  cls : FieldClass;
  columnname : string;
  default : value;
  _wrapper_cls : option wrapper;
  _default_fn : option value
}.

(** An entity: its class name and its [_data] dictionary. *)
Record Model := {
  class_name : string;
  _data : gmap string value
}.

(** [instance._data.get(key)] *)
Definition data_get (inst : Model) (key : string) : value :=
  match _data inst !! key with
  | Some v => v
  | None => VNone
  end.

(** [instance._data[key] = v] *)
Definition data_set (inst : Model) (key : string) (v : value) : Model :=
  {| class_name := class_name inst; _data := <[key := v]> (_data inst) |}.

Definition BASE_TYPE (f : descriptor) : option pytype :=
  match cls f with
  | Field => None
  | BooleanField => Some t_bool
  | DateTimeField => Some t_datetime
  | IntegerField => Some t_int
  | FloatField => Some t_float
  | JsonWrappedClassField => option_map (fun w => t_class (wrapper_name w)) (_wrapper_cls f)
  | JsonDataField => Some t_basestring
  | StringField => Some t_basestring
  | MapField => Some t_dict
  | SetField => Some t_set
  | UuidField => Some t_UUID
  end.

Definition isinstance_arg2_error : exn :=
  TypeError "isinstance() arg 2 must be a class, type, or tuple of classes and types".

(** [isinstance(v, self.BASE_TYPE)], which raises when [BASE_TYPE] is [None]. *)
Definition isinstance_base (v : value) (f : descriptor) : result bool :=
  match BASE_TYPE f with
  | Some t => Ok (isinstance v t)
  | None => Raise isinstance_arg2_error
  end.

(** [repr] of a class, as ["%s" % self.BASE_TYPE] prints it. *)
Definition type_repr (t : pytype) : string :=
  match t with
  | t_bool => "<type 'bool'>"
  | t_int => "<type 'int'>"
  | t_float => "<type 'float'>"
  | t_basestring => "<type 'basestring'>"
  | t_datetime => "<type 'datetime.datetime'>"
  | t_dict => "<type 'dict'>"
  | t_list => "<type 'list'>"
  | t_set => "<type 'set'>"
  | t_sortedset => "<class 'blist._sortedlist.sortedset'>"
  | t_SortedSet => "<class 'cassandra.util.SortedSet'>"
  | t_OrderedMap => "<class 'cassandra.util.OrderedMap'>"
  | t_UUID => "<class 'uuid.UUID'>"
  | t_class name => "<class '" ++ name ++ "'>"
  end.

Definition must_be (f : descriptor) (what : string) : exn :=
  Exception ("Property " ++ columnname f ++ " must be an instance of " ++ what).

(** [Field.__init__]: the default, when given, has the base type. *)
Definition Field__init__ (c : FieldClass) (columnname : string) (default : value)
    : result descriptor :=
  let self := {| cls := c; columnname := columnname; default := default;
                 _wrapper_cls := None; _default_fn := None |} in
  if is_None default then Ok self
  else
    match BASE_TYPE self with
    | None => Raise isinstance_arg2_error
    | Some t => if isinstance default t then Ok self else Raise (must_be self (type_repr t))
    end.

(** [JsonWrappedClassField.__init__] *)
Definition JsonWrappedClassField__init__ (columnname : string)
    (default_fn : option value) (wrapper_cls : option wrapper) : result descriptor :=
  let self := {| cls := JsonWrappedClassField; columnname := columnname;
                 default := VNone; _wrapper_cls := wrapper_cls;
                 _default_fn := default_fn |} in
  match wrapper_cls with
  | Some w =>
      if inherits_JsonSerializableBase w then Ok self
      else Raise (Exception "Wrapper Class must inherit JsonSerializableBase")
  | None => Ok self
  end.

(** *** Getters *)

Definition Field__get__ (self : descriptor) (instance : Model) : value :=
  let value := data_get instance (columnname self) in
  if negb (is_None value) then value else default self.

Definition DateTimeField__get__ (self : descriptor) (instance : Model) : value :=
  if negb (truthy (data_get instance (columnname self))) then VNone
  else data_get instance (columnname self).

Definition JsonWrappedClassField__get__ (self : descriptor) (instance : Model) : value :=
  let value := Field__get__ self instance in
  if truthy value then value
  else match _default_fn self with
       | Some produced => produced
       | None => VNone
       end.

(** The three getters below store the fallback before returning it. *)
Definition MapField__get__ (self : descriptor) (instance : Model) : value * Model :=
  let instance' :=
    if is_None (data_get instance (columnname self)) then
      if truthy (default self) then data_set instance (columnname self) (default self)
      else data_set instance (columnname self) (VDict [])
    else instance in
  (data_get instance' (columnname self), instance').

Definition SetField__get__ (self : descriptor) (instance : Model) : value * Model :=
  let instance' :=
    if is_None (data_get instance (columnname self)) then
      if truthy (default self) then data_set instance (columnname self) (default self)
      else data_set instance (columnname self) (VSet [])
    else instance in
  (data_get instance' (columnname self), instance').

Definition UuidField__get__ (self : descriptor) (instance : Model) : value * Model :=
  let instance' :=
    if is_None (data_get instance (columnname self)) then
      if truthy (default self) then data_set instance (columnname self) (default self)
      else data_set instance (columnname self) VNone
    else instance in
  (data_get instance' (columnname self), instance').

(** Method resolution for [__get__]. *)
Definition descr__get__ (self : descriptor) (instance : Model) : value * Model :=
  match cls self with
  | DateTimeField => (DateTimeField__get__ self instance, instance)
  | JsonWrappedClassField => (JsonWrappedClassField__get__ self instance, instance)
  | MapField => MapField__get__ self instance
  | SetField => SetField__get__ self instance
  | UuidField => UuidField__get__ self instance
  | Field | BooleanField | IntegerField | FloatField | JsonDataField | StringField =>
      (Field__get__ self instance, instance)
  end.

(** *** Setters *)

Definition Field__set__ (self : descriptor) (instance : Model) (value : value)
    : result Model :=
  Ok (data_set instance (columnname self) value).

(** The body shared by [BooleanField], [IntegerField], [FloatField] and
    [UuidField]: [None] is stored, anything else must have the base type. *)
Definition checked__set__ (what : string) (self : descriptor) (instance : Model)
    (value : value) : result Model :=
  if is_None value then Ok (data_set instance (columnname self) VNone)
  else
    try! ok := isinstance_base value self in
    if negb ok then Raise (must_be self what)
    else Ok (data_set instance (columnname self) value).

Definition BooleanField__set__ := checked__set__ "bool".
Definition IntegerField__set__ := checked__set__ "int".
Definition FloatField__set__ := checked__set__ "float".
(** The message of [UuidField] says [int] in the source as well. *)
Definition UuidField__set__ := checked__set__ "int".

Definition DateTimeField__set__ (self : descriptor) (instance : Model) (value : value)
    : result Model :=
  if truthy value && negb (isinstance value t_datetime) then
    Raise (must_be self "datetime")
  else
    match value with
    | VDateTime d =>
        match tzinfo d with
        | Some _ => Ok (data_set instance (columnname self) value)
        | None =>
            Ok (data_set instance (columnname self)
                  (VDateTime (replace_tzinfo d tzutc)))
        end
    | _ => Ok (data_set instance (columnname self) VNone)
    end.

Definition StringField__set__ (self : descriptor) (instance : Model) (value : value)
    : result Model :=
  if truthy value && negb (isinstance value t_basestring) then
    Raise (must_be self "basestring")
  else Ok (data_set instance (columnname self) value).

Definition MapField__set__ (self : descriptor) (instance : Model) (value : value)
    : result Model :=
  let value := match value with
               | VOrderedMap m => VDict m
               | _ => value
               end in
  if truthy value && negb (isinstance value t_dict) then
    Raise (must_be self "dict")
  else if is_None value then Ok (data_set instance (columnname self) (VDict []))
  else Ok (data_set instance (columnname self) value).

Definition SetField__set__ (self : descriptor) (instance : Model) (value : value)
    : result Model :=
  if truthy value && negb (isinstance value t_set || isinstance value t_sortedset
                           || isinstance value t_SortedSet) then
    Raise (must_be self "set, sortedset, or SortedSet")
  else if is_None value then Ok (data_set instance (columnname self) (VSet []))
  else Ok (data_set instance (columnname self) value).

Definition JsonWrappedClassField__set__ (self : descriptor) (instance : Model)
    (value : value) : result Model :=
  if is_None value then Ok (data_set instance (columnname self) VNone)
  else
    match _wrapper_cls self with
    | None => Raise isinstance_arg2_error
    | Some w =>
        if isinstance value (t_class (wrapper_name w)) then
          Ok (data_set instance (columnname self) value)
        else
          match value with
          | VStr text =>
              try! wrapped := from_json w text in
              Ok (data_set instance (columnname self) wrapped)
          | _ => Raise (Exception ("Unsupported type " ++ class_name instance))
          end
    end.

Definition JsonDataField__set__ `{Json} (self : descriptor) (instance : Model)
    (value : value) : result Model :=
  if is_None value then Ok (data_set instance (columnname self) VNone)
  else if negb (isinstance value t_basestring || isinstance value t_dict
                || isinstance value t_list) then
    Raise (must_be self "str, dict, or list")
  else
    match value with
    | VStr text =>
        try! decoded := json_loads text in
        if negb (isinstance decoded t_dict || isinstance decoded t_list) then
          Raise (Exception ("Decoded Json in Property " ++ columnname self
                            ++ " must be an instance of dict or list"))
        else Ok (data_set instance (columnname self) decoded)
    | _ => Ok (data_set instance (columnname self) value)
    end.

(** Method resolution for [__set__]. *)
Definition descr__set__ `{Json} (self : descriptor) (instance : Model) (value : value)
    : result Model :=
  match cls self with
  | Field => Field__set__ self instance value
  | BooleanField => BooleanField__set__ self instance value
  | DateTimeField => DateTimeField__set__ self instance value
  | IntegerField => IntegerField__set__ self instance value
  | FloatField => FloatField__set__ self instance value
  | JsonWrappedClassField => JsonWrappedClassField__set__ self instance value
  | JsonDataField => JsonDataField__set__ self instance value
  | StringField => StringField__set__ self instance value
  | MapField => MapField__set__ self instance value
  | SetField => SetField__set__ self instance value
  | UuidField => UuidField__set__ self instance value
  end.

(** *** Conversion for storage *)

Definition Field_serialize (self : descriptor) (v : value) : result value :=
  Ok v.

Definition JsonWrappedClassField_serialize (self : descriptor) (v : value)
    : result value :=
  if negb (truthy v) then Ok VNone
  else
    match _wrapper_cls self with
    | None => Raise isinstance_arg2_error
    | Some w =>
        if negb (isinstance v (t_class (wrapper_name w))) then
          Raise (Exception "Improper value set for class")
        else to_json w v
    end.

Definition JsonDataField_serialize `{Json} (self : descriptor) (v : value)
    : result value :=
  if negb (truthy v) then Ok VNone else json_dumps v.

Definition descr_serialize `{Json} (self : descriptor) (v : value) : result value :=
  match cls self with
  | JsonWrappedClassField => JsonWrappedClassField_serialize self v
  | JsonDataField => JsonDataField_serialize self v
  | _ => Field_serialize self v
  end.

(** ** The model registry and the entity base class *)

(** [sorted] on attribute names. *)
Fixpoint insert_sorted (x : string) (l : list string) : list string :=
  match l with
  | [] => [x]
  | y :: l' => if String.leb x y then x :: l else y :: insert_sorted x l'
  end.

Definition sorted (l : list string) : list string := foldr insert_sorted [] l.

(** [ModelMeta.__new__]: registers the descriptors among the class
    attributes, giving each unnamed one the name of its attribute.  [attrs]
    holds the class attributes that are [Field] instances; the others are
    skipped by the loop. *)
Definition ModelMeta__new__ (_registry : gmap string (gmap string descriptor))
    (name : string) (attrs : gmap string descriptor)
    : gmap string (gmap string descriptor) :=
  let registered := match _registry !! name with
                    | Some fields => fields
                    | None => ∅
                    end in
  let named attrname field_obj :=
    if negb (truthy (VStr (columnname field_obj))) then
      {| cls := cls field_obj; columnname := attrname; default := default field_obj;
         _wrapper_cls := _wrapper_cls field_obj; _default_fn := _default_fn field_obj |}
    else field_obj in
  <[name := map_imap (fun attrname field_obj => Some (named attrname field_obj)) attrs
            ∪ registered]> _registry.

Section Model.
Context `{Json}.
Variable _registry : gmap string (gmap string descriptor).

(** [ModelMeta._registry[self.__class__.__name__]] *)
Definition registered_fields (self : Model) : gmap string descriptor :=
  match _registry !! class_name self with
  | Some fields => fields
  | None => ∅
  end.

Definition attributes (self : Model) : list string :=
  sorted (map_to_list (registered_fields self)).*1.


(** [getattr(self, attr)] and [setattr(self, key, value)] on a registered
    attribute go through its descriptor. *)
Definition getattr (self : Model) (attr : string) : result (value * Model) :=
  match registered_fields self !! attr with
  | Some field_obj => Ok (descr__get__ field_obj self)
  | None => Raise (AttributeError attr)
  end.

Definition setattr (self : Model) (key : string) (value : value) : result Model :=
  match registered_fields self !! key with
  | Some field_obj => descr__set__ field_obj self value
  | None => Raise (AttributeError key)
  end.

Definition contains (l : list string) (key : string) : bool :=
  existsb (String.eqb key) l.

Fixpoint init_items (items : list (string * value)) (self : Model) : result Model :=
  match items with
  | [] => Ok self
  | (key, value) :: rest =>
      if negb (contains (attributes self) key) then
        Raise (Exception ("Invalid attribute " ++ key))
      else
        try! self' := setattr self key value in
        init_items rest self'
  end.

(** [Model.__init__] of the class named [name]; [data.iteritems()] is read
    as [map_to_list data]. *)
Definition Model__init__ (name : string) (data : option (gmap string value))
    : result Model :=
  let self := {| class_name := name; _data := ∅ |} in
  match data with
  | None => Ok self
  | Some data =>
      if negb (nonempty (map_to_list data)) then Ok self
      else init_items (map_to_list data) self
  end.

Fixpoint eq_attrs (attrs : list string) (self other : Model)
    : result (bool * Model * Model) :=
  match attrs with
  | [] => Ok (true, self, other)
  | attr :: rest =>
      try! mine := getattr self attr in
      try! theirs := getattr other attr in
      try! differ := py_ne (fst mine) (fst theirs) in
      if differ then Ok (false, snd mine, snd theirs)
      else eq_attrs rest (snd mine) (snd theirs)
  end.

(** [Model.__eq__]; the getters may have stored fallbacks in either entity. *)
Definition Model__eq__ (self other : Model) : result (bool * Model * Model) :=
  if negb (String.eqb (class_name other) (class_name self)) then
    Ok (false, self, other)
  else eq_attrs (attributes self) self other.

Definition Model__ne__ (self other : Model) : result (bool * Model * Model) :=
  try! r := Model__eq__ self other in
  let '(b, self', other') := r in Ok (negb b, self', other').

Fixpoint to_dict_items (attrs : list string) (self : Model)
    (acc : gmap string value) : result (gmap string value * Model) :=
  match attrs with
  | [] => Ok (acc, self)
  | attr :: rest =>
      try! got := getattr self attr in
      to_dict_items rest (snd got) (<[attr := fst got]> acc)
  end.

(** [Model.to_dict] *)
Definition to_dict (self : Model) : result (gmap string value * Model) :=
  to_dict_items (attributes self) self ∅.

Fixpoint serialize_items (items : list (string * descriptor)) (self : Model)
    (serialized : gmap string value) : result (gmap string value * Model) :=
  match items with
  | [] => Ok (serialized, self)
  | (attrname, fieldobj) :: rest =>
      try! got := getattr self attrname in
      try! serialized_value := descr_serialize fieldobj (fst got) in
      serialize_items rest (snd got)
        (<[columnname fieldobj := serialized_value]> serialized)
  end.

(** [Model.serialize] *)
Definition serialize (self : Model) : result (gmap string value * Model) :=
  serialize_items (map_to_list (registered_fields self)) self ∅.

End Model.

(** ** The Location entity ([lib/models/location.py]) *)

(** A descriptor built with no arguments, as in [StringField()]. *)
Definition no_args (c : FieldClass) : descriptor :=
  {| cls := c; columnname := ""; default := VNone;
     _wrapper_cls := None; _default_fn := None |}.

(** The same descriptor once the metaclass has named it. *)
Definition named (c : FieldClass) (col : string) : descriptor :=
  {| cls := c; columnname := col; default := VNone;
     _wrapper_cls := None; _default_fn := None |}.

Definition Location_attrs : gmap string descriptor :=
  <["username" := no_args StringField]>
  (<["location_name" := no_args StringField]>
  (<["latitude" := no_args FloatField]>
  (<["longitude" := no_args FloatField]>
  (<["timestamp_created" := no_args DateTimeField]> ∅)))).

(** The registry once [lib.models] is imported: [Model], then [Location]. *)
Definition the_registry : gmap string (gmap string descriptor) :=
  ModelMeta__new__ (ModelMeta__new__ ∅ "Model" ∅) "Location" Location_attrs.

(** [Location(data)] *)
Definition Location `{Json} (data : option (gmap string value)) : result Model :=
  Model__init__ the_registry "Location" data.

Definition Location_columns : list string :=
  ["latitude"; "location_name"; "longitude"; "timestamp_created"; "username"].

(** ** The row adapter ([lib/models/model_helpers.py]) *)

(** A result row: a namedtuple, its fields in column order. *)
Definition Row := list (string * value).

(** The inner loop of [row_to_dict]: naive datetimes inside a map get UTC. *)
Definition with_utc (entry : scalar * scalar) : scalar * scalar :=
  match entry with
  | (k, SDateTime d) =>
      match tzinfo d with
      | None => (k, SDateTime (replace_tzinfo d tzutc))
      | Some _ => entry
      end
  | _ => entry
  end.

Fixpoint row_to_dict_items (items : Row) (d : gmap string value) : gmap string value :=
  match items with
  | [] => d
  | (name, attr) :: rest =>
      let attr := match attr with
                  | VOrderedMap m => VDict (map with_utc m)
                  | _ => attr
                  end in
      row_to_dict_items rest (<[name := attr]> d)
  end.

Definition row_to_dict (row : Row) : gmap string value := row_to_dict_items row ∅.

(** ** The storage client ([lib/clients/cass.py]) *)

Inductive table :=
| location
| location_by_timestamp.

(** The three query templates of the repository. *)
Inductive cql :=
| INSERT_INTO (t : table)
| SELECT_FROM (t : table)
| SELECT_FROM_WHERE_username (t : table).

Inductive retry_policy :=
| FallthroughRetryPolicy.

(** What [_pack_routing_key] returns for one value: the string itself, a
    [struct.pack] of a number under a format, or [str(v)]; a list is packed
    item by item. *)
Inductive packed_item :=
| packed_bytes (s : string)
| packed_struct (fmt : string) (v : scalar)
| packed_str (v : value).

Inductive packed :=
| packed_one (p : packed_item)
| packed_list (l : list packed_item).

Definition pack_scalar (v : scalar) : packed_item :=
  match v with
  | SInt z => if z >? 2 ^ 32 then packed_struct ">q" v else packed_struct ">i" v
  | SBool _ => packed_struct ">i" v
  | SFloat _ => packed_struct ">f" v
  | SStr s => packed_bytes s
  | _ => packed_str (V v)
  end.

Definition _pack_routing_key (v : value) : packed :=
  match v with
  | VList l => packed_list (map pack_scalar l)
  | V x => packed_one (pack_scalar x)
  | _ => packed_one (packed_str v)
  end.

Definition packed_truthy (k : packed) : bool :=
  match k with
  | packed_one (packed_bytes s) => negb (String.eqb s "")
  | packed_one _ => true
  | packed_list l => nonempty l
  end.

Record SimpleStatement := {
  query : cql;
  routing_key : option packed;
  policy : option retry_policy
}.

Definition _create_simple_statement (query : cql) (routing_key : option packed)
    (policy : option retry_policy) : SimpleStatement :=
  {| query := query;
     routing_key := match routing_key with
                    | Some k => if packed_truthy k then Some k else None
                    | None => None
                    end;
     policy := policy |}.

(** [_create_statement] with [use_prepared=False], the only way the
    repository calls it. *)
Definition _create_statement (query : cql) (routing_key : option value)
    (policy : option retry_policy) : SimpleStatement :=
  let routing_key :=
    match routing_key with
    | Some k => if truthy k then Some (_pack_routing_key k) else None
    | None => None
    end in
  _create_simple_statement query routing_key policy.

(** *** The driver session

    The session and the cluster behind it are outside the repository.  They
    are modelled by two tables of rows, the record of what was executed, and
    a schedule of outages: each execution consumes one entry, and fails with
    [StorageError], leaving the tables as they were, when the entry is
    [true]. *)
Record Session := {
  rows : table -> list Row;
  outages : list bool;
  executed : list (SimpleStatement * option (gmap string value))
}.

Definition put_row (t : table) (r : Row) (rows : table -> list Row) : table -> list Row :=
  fun t' => match t, t' with
            | location, location | location_by_timestamp, location_by_timestamp =>
                (rows t' ++ [r])%list
            | _, _ => rows t'
            end.

(** The five [%(name)s] placeholders of the INSERT templates. *)
Definition insert_columns : list string :=
  ["username"; "latitude"; "longitude"; "timestamp_created"; "location_name"].

Fixpoint bind_columns (columns : list string) (params : gmap string value) : result Row :=
  match columns with
  | [] => Ok []
  | c :: rest =>
      match params !! c with
      | None => Raise (KeyError c)
      | Some v => try! r := bind_columns rest params in Ok ((c, v) :: r)
      end
  end.

Definition row_field (r : Row) (name : string) : value :=
  match find (fun entry => String.eqb (fst entry) name) r with
  | Some entry => snd entry
  | None => VNone
  end.

Definition matches_username (username : value) (r : Row) : bool :=
  match py_eq (row_field r "username") username with
  | Ok true => true
  | _ => false
  end.

Definition run_query (rows : table -> list Row) (q : cql)
    (params : option (gmap string value)) : result ((table -> list Row) * list Row) :=
  let params := match params with Some p => p | None => ∅ end in
  match q with
  | INSERT_INTO t =>
      try! r := bind_columns insert_columns params in Ok (put_row t r rows, [])
  | SELECT_FROM t => Ok (rows, rows t)
  | SELECT_FROM_WHERE_username t =>
      match params !! "username" with
      | None => Raise (KeyError "username")
      | Some u => Ok (rows, filter (fun r => matches_username u r = true) (rows t))
      end
  end.

(** [session.execute(statement, params)] *)
Definition session_execute (session : Session) (statement : SimpleStatement)
    (params : option (gmap string value)) : Session * result (list Row) :=
  let executed' := (executed session ++ [(statement, params)])%list in
  match outages session with
  | true :: later =>
      ({| rows := rows session; outages := later; executed := executed' |},
       Raise (StorageError "the statement could not be executed"))
  | _ =>
      let later := tail (outages session) in
      match run_query (rows session) (query statement) params with
      | Ok (rows', found) =>
          ({| rows := rows'; outages := later; executed := executed' |}, Ok found)
      | Raise e =>
          ({| rows := rows session; outages := later; executed := executed' |}, Raise e)
      end
  end.

(** [SimpleClient.execute(query, params, routing_key=..., retry_policy=...)] *)
Definition SimpleClient_execute (session : Session) (query : cql)
    (params : option (gmap string value)) (routing_key : option value)
    (policy : option retry_policy) : Session * result (list Row) :=
  let statement := _create_statement query routing_key policy in
  session_execute session statement params.

(** ** The Location repository ([lib/repositories/location.py]) *)

(** Sequencing of client calls: the session is threaded, an exception stops
    the method and reaches the caller. *)
Definition and_then {A B} (step : Session * result A)
    (k : Session -> A -> Session * result B) : Session * result B :=
  match step with
  | (session, Ok a) => k session a
  | (session, Raise e) => (session, Raise e)
  end.

Notation "'run!' ( s , x ) := m 'in' k" := (and_then m (fun s x => k))
  (at level 10, s name, x name, m at level 100, k at level 200,
   format "'[v' 'run!'  ( s ,  x )  :=  m  'in' '/' k ']'").

Section LocationRepo.
Context `{Json}.

Definition LocationRepo_create (client : Session) (loc : Model)
    : Session * result unit :=
  run! (client, converted) := (client, to_dict the_registry loc) in
  let location_dict := fst converted in
  let loc := snd converted in
  run! (client, username1) := (client, getattr the_registry loc "username") in
  run! (client, _done) :=
    SimpleClient_execute client (INSERT_INTO location) (Some location_dict)
      (Some (fst username1)) (Some FallthroughRetryPolicy) in
  run! (client, username2) := (client, getattr the_registry (snd username1) "username") in
  run! (client, _done) :=
    SimpleClient_execute client (INSERT_INTO location_by_timestamp)
      (Some location_dict) (Some (fst username2)) (Some FallthroughRetryPolicy) in
  (client, Ok tt).

(** [[Location(row_to_dict(result)) for result in results]] *)
Fixpoint build_locations (results : list Row) : result (list Model) :=
  match results with
  | [] => Ok []
  | r :: rest =>
      try! built := Location (Some (row_to_dict r)) in
      try! others := build_locations rest in
      Ok (built :: others)
  end.

(** [None] is the method's [return None]. *)
Definition LocationRepo_index (client : Session)
    : Session * result (option (list Model)) :=
  run! (client, results) :=
    SimpleClient_execute client (SELECT_FROM location) None None None in
  if negb (nonempty results) then (client, Ok None)
  else (client, try! built := build_locations results in Ok (Some built)).

Definition LocationRepo_get (client : Session) (username : value)
    : Session * result (option (list Model)) :=
  run! (client, results) :=
    SimpleClient_execute client (SELECT_FROM_WHERE_username location_by_timestamp)
      (Some {[ "username" := username ]}) None None in
  if negb (nonempty results) then (client, Ok None)
  else (client, try! built := build_locations results in Ok (Some built)).

End LocationRepo.

(** A session with empty tables, no outage scheduled, nothing executed yet. *)
Definition fresh_session : Session :=
  {| rows := fun _ => []; outages := []; executed := [] |}.

(** A codec that knows the two empty documents; enough to run examples. *)
#[local] Instance empty_documents : Json := {|
  json_loads text :=
    if String.eqb text "{}" then Ok (VDict [])
    else if String.eqb text "[]" then Ok (VList [])
    else Raise (Exception "No JSON object could be decoded");
  json_dumps v :=
    match v with
    | VDict [] => Ok (VStr "{}")
    | VList [] => Ok (VStr "[]")
    | _ => Raise (TypeError "is not JSON serializable")
    end
|}.

Definition alice_T0 : datetime := {| wall := 63600000000000000; tzinfo := None |}.

Definition alice_input : gmap string value :=
  <["username" := VStr "alice"]>
  (<["location_name" := VStr "Central Park"]>
  (<["latitude" := VFloat 0x1.4647ddca4b125p+5%float]>
  (<["longitude" := VFloat (-0x1.27df861a60d45p+6)%float]>
  (<["timestamp_created" := VDateTime alice_T0]> ∅)))).

(** * Properties *)

(** ** Basic facts about entity storage *)

Lemma data_get_set_eq (inst : Model) (key : string) (v : value) :
  data_get (data_set inst key v) key = v.
Proof. unfold data_get, data_set; simpl. by rewrite lookup_insert_eq. Qed.

Lemma data_get_set_ne (inst : Model) (key key' : string) (v : value) :
  key ≠ key' -> data_get (data_set inst key v) key' = data_get inst key'.
Proof. intros Hne. unfold data_get, data_set; simpl. by rewrite lookup_insert_ne. Qed.

Lemma data_get_unset (inst : Model) (key : string) :
  _data inst !! key = None -> data_get inst key = VNone.
Proof. intros Hnone. unfold data_get. by rewrite Hnone. Qed.

Lemma class_name_data_set (inst : Model) (key : string) (v : value) :
  class_name (data_set inst key v) = class_name inst.
Proof. reflexivity. Qed.

(** A descriptor as its class's constructor leaves it: [Field.__init__] for
    every class but [JsonWrappedClassField], which has its own. *)
Definition declared (f : descriptor) : Prop :=
  (exists c col dflt, c <> JsonWrappedClassField /\ Field__init__ c col dflt = Ok f) \/
  (exists col fn w, JsonWrappedClassField__init__ col fn w = Ok f).

Lemma Field__init__inv (c : FieldClass) (col : string) (dflt : value) (f : descriptor) :
  Field__init__ c col dflt = Ok f ->
  cls f = c /\ columnname f = col /\ default f = dflt /\
  _wrapper_cls f = None /\ _default_fn f = None /\
  (dflt = VNone \/ exists t, BASE_TYPE f = Some t /\ isinstance dflt t = true).
Proof.
  unfold Field__init__. intros Hinit.
  destruct (is_None dflt) eqn:Hnone.
  - injection Hinit as <-. simpl. repeat split; try done.
    left. by destruct dflt as [[]| | | | | |].
  - destruct (BASE_TYPE _) as [t|] eqn:Hbase; [|done].
    destruct (isinstance dflt t) eqn:Hinst; [|done].
    injection Hinit as <-. simpl. repeat split; try done.
    right. exists t. split; [exact Hbase | exact Hinst].
Qed.

(** A default that passed [Field.__init__] for a UID field is [None] or true. *)
Lemma uuid_default_truthy (col : string) (dflt : value) (f : descriptor) :
  Field__init__ UuidField col dflt = Ok f ->
  truthy dflt = negb (is_None dflt).
Proof.
  intros Hinit. destruct (Field__init__inv _ _ _ _ Hinit)
    as (Hcls & _ & _ & _ & _ & [-> | (t & Hbase & Hinst)]); [done|].
  unfold BASE_TYPE in Hbase. rewrite Hcls in Hbase. injection Hbase as <-.
  by destruct dflt as [[]| | | | | |].
Qed.

(** ** Reading a field *)

(** The contract of [get] as the specification words it: the stored value
    when there is one, the declared default when it is unset or null. *)
Definition stored_or_default (f : descriptor) (inst : Model) : value :=
  if is_None (data_get inst (columnname f)) then default f
  else data_get inst (columnname f).

(** What each variant's getter returns, given the stored value. *)
Definition read_back (f : descriptor) (stored : value) : value :=
  match cls f with
  | DateTimeField => if truthy stored then stored else VNone
  | MapField =>
      if is_None stored then (if truthy (default f) then default f else VDict [])
      else stored
  | SetField =>
      if is_None stored then (if truthy (default f) then default f else VSet [])
      else stored
  | JsonWrappedClassField =>
      if truthy stored then stored
      else match _default_fn f with
           | Some produced => produced
           | None => VNone
           end
  | Field | BooleanField | IntegerField | FloatField | JsonDataField
  | StringField | UuidField =>
      if is_None stored then default f else stored
  end.

Definition a_moment : datetime := {| wall := 63600000000000000; tzinfo := Some tzutc |}.

(** [DateTimeField(columnname="seen", default=a_moment)] *)
Definition seen_field : descriptor :=
  {| cls := DateTimeField; columnname := "seen"; default := VDateTime a_moment;
     _wrapper_cls := None; _default_fn := None |}.

Definition blank (name : string) : Model := {| class_name := name; _data := ∅ |}.

(** C6, counterexample: a Timestamp descriptor declared with a default
    returns null, not that default, for an entity whose value is unset. *)
Lemma DateTimeField_get_ignores_default :
  Field__init__ DateTimeField "seen" (VDateTime a_moment) = Ok seen_field /\
  fst (descr__get__ seen_field (blank "Visit")) = VNone /\
  fst (descr__get__ seen_field (blank "Visit")) <> stored_or_default seen_field (blank "Visit").
Proof. repeat split. vm_compute. discriminate. Qed.

Lemma declared_wrapped_default (f : descriptor) :
  declared f -> cls f = JsonWrappedClassField -> default f = VNone.
Proof.
  intros [(c & col & dflt & Hc & Hinit) | (col & fn & w & Hinit)] Hcls.
  - destruct (Field__init__inv _ _ _ _ Hinit) as (Hc' & _). congruence.
  - unfold JsonWrappedClassField__init__ in Hinit.
    destruct w as [w|]; [destruct (inherits_JsonSerializableBase w)|];
      try done; by injection Hinit as <-.
Qed.

Lemma declared_uuid_default (f : descriptor) :
  declared f -> cls f = UuidField ->
  truthy (default f) = negb (is_None (default f)).
Proof.
  intros [(c & col & dflt & _ & Hinit) | (col & fn & w & Hinit)] Hcls.
  - destruct (Field__init__inv _ _ _ _ Hinit) as (Hc & _ & Hd & _).
    rewrite Hcls in Hc. subst c. rewrite Hd.
    by apply (uuid_default_truthy col dflt f).
  - unfold JsonWrappedClassField__init__ in Hinit.
    destruct w as [w|]; [destruct (inherits_JsonSerializableBase w)|];
      try done; injection Hinit as <-; done.
Qed.

Lemma UuidField__get__fst (f : descriptor) (inst : Model) :
  truthy (default f) = negb (is_None (default f)) ->
  fst (UuidField__get__ f inst) =
  if is_None (data_get inst (columnname f)) then default f
  else data_get inst (columnname f).
Proof.
  intros Htruthy. unfold UuidField__get__.
  destruct (is_None (data_get inst (columnname f))) eqn:Hnone; simpl; [|done].
  rewrite Htruthy.
  destruct (is_None (default f)) eqn:Hd; simpl; rewrite data_get_set_eq; [|done].
  by destruct (default f) as [[]| | | | | |].
Qed.

(** C6, amended: the base getter (Boolean, Integer, Float, String, OpaqueJSON
    and UID descriptors) returns the stored value when it is non-null and the
    declared default otherwise; a Timestamp descriptor returns the stored
    value when it is set and null otherwise, whatever its default; a Map or
    Set descriptor returns the stored value when non-null, otherwise its
    non-empty default or else the empty map or set; a WrappedJSON descriptor
    returns the stored value when it is true, otherwise what its default
    function produces, or null. *)
Theorem get_by_variant (f : descriptor) (inst : Model) :
  declared f ->
  fst (descr__get__ f inst) = read_back f (data_get inst (columnname f)) /\
  (cls f ∈ [Field; BooleanField; IntegerField; FloatField; JsonDataField;
            StringField; UuidField] ->
   fst (descr__get__ f inst) = stored_or_default f inst).
Proof.
  intros Hdecl.
  assert (Hbase : fst (descr__get__ f inst) = read_back f (data_get inst (columnname f))).
  { unfold descr__get__, read_back.
    destruct (cls f) eqn:Hcls; simpl;
      try (unfold Field__get__; by destruct (is_None _)).
    - unfold DateTimeField__get__. by destruct (truthy _).
    - unfold JsonWrappedClassField__get__, Field__get__.
      rewrite (declared_wrapped_default f Hdecl Hcls).
      by destruct (data_get inst (columnname f)) as [[]| | | | | |].
    - unfold MapField__get__.
      destruct (is_None (data_get inst (columnname f))) eqn:Hnone; simpl; [|done].
      destruct (truthy (default f)); by rewrite data_get_set_eq.
    - unfold SetField__get__.
      destruct (is_None (data_get inst (columnname f))) eqn:Hnone; simpl; [|done].
      destruct (truthy (default f)); by rewrite data_get_set_eq.
    - apply UuidField__get__fst. by apply declared_uuid_default. }
  split; [exact Hbase|].
  intros Hin. rewrite Hbase. unfold read_back, stored_or_default.
  rewrite !elem_of_cons in Hin.
  destruct Hin as [->|[->|[->|[->|[->|[->|[->|Hin]]]]]]]; try done.
  by apply elem_of_nil in Hin.
Qed.

Lemma get_by_variant_witness :
  declared seen_field /\
  fst (descr__get__ seen_field (blank "Visit")) =
  read_back seen_field (data_get (blank "Visit") (columnname seen_field)).
Proof.
  assert (Hdecl : declared seen_field).
  { left. exists DateTimeField, "seen", (VDateTime a_moment). split; [discriminate|reflexivity]. }
  split; [exact Hdecl|].
  exact (proj1 (get_by_variant seen_field (blank "Visit") Hdecl)).
Defined.

(** ** Assigning to a field *)

Section Assignment.
Context `{Json}.

(** Integer, Float, Boolean and UID descriptors refuse every non-null value
    that is not of the declared type, with an error that carries the
    column name. *)
Lemma checked_set_rejects (f : descriptor) (inst : Model) (v : value) (t : pytype) :
  cls f ∈ [BooleanField; IntegerField; FloatField; UuidField] ->
  BASE_TYPE f = Some t ->
  is_None v = false -> isinstance v t = false ->
  exists what,
    descr__set__ f inst v =
    Raise (Exception ("Property " ++ columnname f ++ " must be an instance of " ++ what)).
Proof.
  intros Hin Hbase Hnone Hinst. rewrite !elem_of_cons in Hin.
  unfold descr__set__.
  destruct Hin as [Hc|[Hc|[Hc|[Hc|Hin]]]]; [..|by apply elem_of_nil in Hin];
    rewrite Hc;
    unfold BooleanField__set__, IntegerField__set__, FloatField__set__,
      UuidField__set__, checked__set__, isinstance_base;
    rewrite Hnone, Hbase; simpl; rewrite Hinst; simpl; eauto.
Qed.

(** A String descriptor refuses every value that is true and not a string. *)
Lemma StringField_set_rejects (f : descriptor) (inst : Model) (v : value) :
  truthy v = true -> isinstance v t_basestring = false ->
  StringField__set__ f inst v = Raise (must_be f "basestring").
Proof.
  intros Htrue Hinst. unfold StringField__set__. by rewrite Htrue, Hinst.
Qed.

(** Null is accepted by String, Float and Integer descriptors, and the
    field then reads as the declared default. *)
Lemma null_assignment_reads_default (f : descriptor) (inst : Model) :
  cls f ∈ [StringField; FloatField; IntegerField] ->
  exists inst',
    descr__set__ f inst VNone = Ok inst' /\
    fst (descr__get__ f inst') = default f.
Proof.
  intros Hin. rewrite !elem_of_cons in Hin.
  exists (data_set inst (columnname f) VNone).
  unfold descr__set__, descr__get__.
  destruct Hin as [Hc|[Hc|[Hc|Hin]]]; [..|by apply elem_of_nil in Hin];
    rewrite Hc; (split; [reflexivity|]); simpl;
    unfold Field__get__; by rewrite data_get_set_eq.
Qed.

(** C7, the failing input: the integer zero is not a string and is not
    null, yet a String field stores it without any error, both through the
    descriptor and through the Location constructor. *)
Theorem StringField_set_accepts_int_zero :
  is_None (VInt 0) = false /\
  isinstance (VInt 0) t_basestring = false /\
  StringField__set__ (named StringField "username") (blank "Location") (VInt 0) =
    Ok (data_set (blank "Location") "username" (VInt 0)) /\
  Location (Some {[ "username" := VInt 0 ]}) =
    Ok (data_set (blank "Location") "username" (VInt 0)).
Proof. repeat split. Qed.

(** C8: a Timestamp field stores a datetime that has no offset with the UTC
    offset attached, and one that carries an offset, UTC or not, as it is;
    reading the field returns what was stored. *)
Theorem DateTimeField_utc_on_set (f : descriptor) (inst : Model) (d : datetime) :
  cls f = DateTimeField ->
  exists inst',
    descr__set__ f inst (VDateTime d) = Ok inst' /\
    (tzinfo d = None ->
     data_get inst' (columnname f) = VDateTime {| wall := wall d; tzinfo := Some tzutc |} /\
     fst (descr__get__ f inst') = VDateTime {| wall := wall d; tzinfo := Some tzutc |}) /\
    (forall offset, tzinfo d = Some offset ->
     data_get inst' (columnname f) = VDateTime d /\
     fst (descr__get__ f inst') = VDateTime d).
Proof.
  intros Hcls. unfold descr__set__, descr__get__. rewrite Hcls.
  unfold DateTimeField__set__, DateTimeField__get__. simpl.
  destruct (tzinfo d) as [offset|] eqn:Htz.
  - eexists. split; [reflexivity|]. split; [done|].
    intros offset' _. by rewrite data_get_set_eq.
  - eexists. split; [reflexivity|]. split; [|done].
    intros _. by rewrite data_get_set_eq.
Qed.

End Assignment.

Lemma DateTimeField_utc_on_set_witness :
  cls (no_args DateTimeField) = DateTimeField /\
  exists inst',
    descr__set__ (no_args DateTimeField) (blank "Location")
      (VDateTime {| wall := 5; tzinfo := None |}) = Ok inst' /\
    fst (descr__get__ (no_args DateTimeField) inst') =
      VDateTime {| wall := 5; tzinfo := Some tzutc |}.
Proof.
  split; [reflexivity|].
  destruct (DateTimeField_utc_on_set (no_args DateTimeField) (blank "Location")
              {| wall := 5; tzinfo := None |} eq_refl) as (inst' & Hset & Hnaive & _).
  exists inst'. split; [exact Hset|]. exact (proj2 (Hnaive eq_refl)).
Defined.

(** ** Null against never set *)

(** [UuidField(columnname="id", default=UUID(int=7))] *)
Definition id_field : descriptor :=
  {| cls := UuidField; columnname := "id"; default := VUuid 7;
     _wrapper_cls := None; _default_fn := None |}.

(** C9, counterexample: a UID field declared with a default and then
    assigned null does not read back as null but as that default. *)
Lemma UuidField_null_reads_default :
  Field__init__ UuidField "id" (VUuid 7) = Ok id_field /\
  UuidField__set__ id_field (blank "Visit") VNone =
    Ok (data_set (blank "Visit") "id" VNone) /\
  fst (UuidField__get__ id_field (data_set (blank "Visit") "id" VNone)) = VUuid 7 /\
  fst (UuidField__get__ id_field (data_set (blank "Visit") "id" VNone)) <> VNone.
Proof. repeat split. vm_compute. discriminate. Qed.

Section NullVersusUnset.
Context `{Json}.

(** C9, amended: Map and Set getters tell a field that was never assigned
    (it falls back to its declared default when that is non-empty, to the
    empty map or set otherwise) from one assigned null (it reads back as
    the empty map or set, even when a default is declared); the UID getter
    does not: never assigned or assigned null, the field reads back as
    the declared default, which is null only when none was declared. *)
Theorem null_versus_unset (c : FieldClass) (col : string) (dflt : value)
    (f : descriptor) (inst : Model) :
  Field__init__ c col dflt = Ok f ->
  (c = MapField ->
   (_data inst !! col = None ->
    fst (descr__get__ f inst) = if truthy dflt then dflt else VDict []) /\
   exists inst', descr__set__ f inst VNone = Ok inst' /\
                 fst (descr__get__ f inst') = VDict []) /\
  (c = SetField ->
   (_data inst !! col = None ->
    fst (descr__get__ f inst) = if truthy dflt then dflt else VSet []) /\
   exists inst', descr__set__ f inst VNone = Ok inst' /\
                 fst (descr__get__ f inst') = VSet []) /\
  (c = UuidField ->
   (_data inst !! col = None -> fst (descr__get__ f inst) = dflt) /\
   exists inst', descr__set__ f inst VNone = Ok inst' /\
                 fst (descr__get__ f inst') = dflt).
Proof.
  intros Hinit.
  destruct (Field__init__inv _ _ _ _ Hinit) as (Hc & Hcol & Hd & _).
  unfold descr__get__, descr__set__. rewrite Hc.
  split; [|split]; intros ->; (split; [intros Hunset|]).
  - unfold MapField__get__. rewrite Hcol, Hd, (data_get_unset _ _ Hunset). simpl.
    destruct (truthy dflt); by rewrite data_get_set_eq.
  - exists (data_set inst col (VDict [])). split.
    + unfold MapField__set__. simpl. by rewrite Hcol.
    + unfold MapField__get__. rewrite Hcol, data_get_set_eq. simpl.
      by rewrite data_get_set_eq.
  - unfold SetField__get__. rewrite Hcol, Hd, (data_get_unset _ _ Hunset). simpl.
    destruct (truthy dflt); by rewrite data_get_set_eq.
  - exists (data_set inst col (VSet [])). split.
    + unfold SetField__set__. simpl. by rewrite Hcol.
    + unfold SetField__get__. rewrite Hcol, data_get_set_eq. simpl.
      by rewrite data_get_set_eq.
  - rewrite UuidField__get__fst.
    + by rewrite Hcol, Hd, (data_get_unset _ _ Hunset).
    + rewrite Hd. by apply (uuid_default_truthy col dflt f).
  - exists (data_set inst col VNone). split.
    + unfold UuidField__set__, checked__set__. simpl. by rewrite Hcol.
    + rewrite UuidField__get__fst.
      * by rewrite Hcol, Hd, data_get_set_eq.
      * rewrite Hd. by apply (uuid_default_truthy col dflt f).
Qed.

End NullVersusUnset.

Lemma null_versus_unset_witness :
  Field__init__ UuidField "id" (VUuid 7) = Ok id_field /\
  exists inst', descr__set__ id_field (blank "Visit") VNone = Ok inst' /\
                fst (descr__get__ id_field inst') = VUuid 7.
Proof.
  split; [reflexivity|].
  exact (proj2 (proj2 (proj2 (null_versus_unset UuidField "id" (VUuid 7) id_field
                                (blank "Visit") eq_refl)) eq_refl)).
Defined.

(** ** Getters that write *)

Lemma elem_of_insert_sorted (x y : string) (l : list string) :
  y ∈ insert_sorted x l <-> y = x \/ y ∈ l.
Proof.
  induction l as [|z l IH]; simpl.
  - rewrite list_elem_of_singleton. split; [by left|]. intros [?|Hnil]; [done|].
    by apply elem_of_nil in Hnil.
  - destruct (String.leb x z).
    + by rewrite elem_of_cons.
    + rewrite !elem_of_cons, IH. tauto.
Qed.

Lemma elem_of_sorted (y : string) (l : list string) : y ∈ sorted l <-> y ∈ l.
Proof.
  induction l as [|x l IH]; simpl; [done|].
  by rewrite elem_of_insert_sorted, elem_of_cons, IH.
Qed.

Lemma elem_of_attributes (reg : gmap string (gmap string descriptor))
    (self : Model) (attr : string) :
  attr ∈ attributes reg self <-> is_Some (registered_fields reg self !! attr).
Proof.
  unfold attributes. rewrite elem_of_sorted, list_elem_of_fmap. split.
  - intros ([k f] & -> & Hin). apply elem_of_map_to_list in Hin. by exists f.
  - intros [f Hf]. exists (attr, f). split; [done|]. by apply elem_of_map_to_list.
Qed.

Lemma descr__get__class_name (f : descriptor) (inst : Model) :
  class_name (snd (descr__get__ f inst)) = class_name inst.
Proof.
  unfold descr__get__, MapField__get__, SetField__get__, UuidField__get__.
  destruct (cls f); simpl; try done;
    destruct (is_None _); try done; by destruct (truthy _).
Qed.

Lemma registered_fields_class (reg : gmap string (gmap string descriptor))
    (a b : Model) :
  class_name a = class_name b -> registered_fields reg a = registered_fields reg b.
Proof. unfold registered_fields. by intros ->. Qed.

(** No getter overwrites a column that holds a non-null value. *)
Lemma descr__get__keeps (g : descriptor) (inst : Model) (column : string) :
  is_None (data_get inst column) = false ->
  data_get (snd (descr__get__ g inst)) column = data_get inst column.
Proof.
  intros Hset.
  unfold descr__get__, MapField__get__, SetField__get__, UuidField__get__.
  destruct (cls g); simpl; try done;
    (destruct (is_None (data_get inst (columnname g))) eqn:Hnone; [|done]);
    (destruct (decide (columnname g = column)) as [Heq|Hne];
     [rewrite Heq in Hnone; congruence|]);
    destruct (truthy (default g)); by rewrite data_get_set_ne.
Qed.

Lemma container_get_stored (f : descriptor) (inst : Model) :
  cls f = MapField \/ cls f = SetField ->
  is_None (data_get inst (columnname f)) = false ->
  fst (descr__get__ f inst) = data_get inst (columnname f).
Proof.
  intros [Hcls|Hcls] Hset; unfold descr__get__; rewrite Hcls;
    unfold MapField__get__, SetField__get__; by rewrite Hset.
Qed.

Lemma to_dict_items_entry (reg : gmap string (gmap string descriptor))
    (f : descriptor) (attr0 : string) (v : value) :
  cls f = MapField \/ cls f = SetField ->
  is_None v = false ->
  forall (attrs : list string) (self : Model) (acc : gmap string value),
    (forall a, a ∈ attrs -> is_Some (registered_fields reg self !! a)) ->
    registered_fields reg self !! attr0 = Some f ->
    data_get self (columnname f) = v ->
    attr0 ∈ attrs \/ acc !! attr0 = Some v ->
    exists d self', to_dict_items reg attrs self acc = Ok (d, self') /\
                    d !! attr0 = Some v.
Proof.
  intros Hcls Hv attrs. induction attrs as [|a rest IH]; intros self acc Hall Hf Hcol Hin.
  - simpl. destruct Hin as [Hin|Hacc]; [by apply elem_of_nil in Hin|]. eauto.
  - simpl. unfold getattr at 1.
    destruct (Hall a) as [g Hg]; [by left|]. rewrite Hg. simpl.
    assert (Hsame : registered_fields reg (snd (descr__get__ g self)) =
                    registered_fields reg self).
    { apply registered_fields_class, descr__get__class_name. }
    apply IH.
    + intros a' Ha'. rewrite Hsame. apply Hall. by right.
    + by rewrite Hsame.
    + rewrite descr__get__keeps; [done|]. by rewrite Hcol.
    + destruct (decide (a = attr0)) as [->|Hne].
      * right. rewrite lookup_insert_eq. f_equal.
        assert (g = f) as -> by congruence.
        rewrite container_get_stored; [done|done|]. by rewrite Hcol.
      * destruct Hin as [Hin|Hacc].
        -- left. apply elem_of_cons in Hin as [?|?]; [congruence|done].
        -- right. by rewrite lookup_insert_ne.
Qed.

(** The value a Map or Set getter falls back to. *)
Definition fallback (f : descriptor) : value :=
  if truthy (default f) then default f
  else match cls f with
       | SetField => VSet []
       | _ => VDict []
       end.

(** C10: reading a Map or Set field that was never assigned writes the
    fallback (the declared default, or a new empty map or set) into the
    entity's storage and returns it; after any read of such a field the
    storage has a non-null entry for the column, equal to what was returned,
    and a later conversion of the entity carries it. *)
Theorem container_get_stores_fallback (f : descriptor) (inst : Model) :
  cls f = MapField \/ cls f = SetField ->
  (_data inst !! columnname f = None ->
   descr__get__ f inst = (fallback f, data_set inst (columnname f) (fallback f)) /\
   snd (descr__get__ f inst) <> inst) /\
  _data (snd (descr__get__ f inst)) !! columnname f = Some (fst (descr__get__ f inst)) /\
  is_None (fst (descr__get__ f inst)) = false /\
  (forall (reg : gmap string (gmap string descriptor)) (attr : string),
     registered_fields reg inst !! attr = Some f ->
     exists d inst',
       to_dict reg (snd (descr__get__ f inst)) = Ok (d, inst') /\
       d !! attr = Some (fst (descr__get__ f inst))).
Proof.
  intros Hcls.
  assert (Hwritten : forall i, _data i !! columnname f = None ->
            descr__get__ f i = (fallback f, data_set i (columnname f) (fallback f))).
  { intros i Hunset. unfold descr__get__, fallback.
    destruct Hcls as [Hc|Hc]; rewrite Hc;
      unfold MapField__get__, SetField__get__;
      rewrite (data_get_unset _ _ Hunset); simpl;
      destruct (truthy (default f)); by rewrite data_get_set_eq. }
  assert (Hentry : _data (snd (descr__get__ f inst)) !! columnname f
                   = Some (fst (descr__get__ f inst)) /\
                   is_None (fst (descr__get__ f inst)) = false).
  { unfold descr__get__.
    destruct Hcls as [Hc|Hc]; rewrite Hc;
      unfold MapField__get__, SetField__get__;
      (destruct (is_None (data_get inst (columnname f))) eqn:Hnone; simpl;
       [ destruct (truthy (default f)) eqn:Htruthy; rewrite data_get_set_eq;
         simpl; rewrite lookup_insert_eq; (split; [done|]);
         [by destruct (default f) as [[]| | | | | |] | done]
       | unfold data_get in *; destruct (_data inst !! columnname f); done ]). }
  split; [|split; [exact (proj1 Hentry)|split; [exact (proj2 Hentry)|]]].
  - intros Hunset. split; [by apply Hwritten|].
    rewrite (Hwritten inst Hunset). simpl. intros Hsame.
    assert (Hlook : _data (data_set inst (columnname f) (fallback f)) !! columnname f
                    = None) by (by rewrite Hsame).
    simpl in Hlook. by rewrite lookup_insert_eq in Hlook.
  - intros reg attr Hreg. unfold to_dict.
    destruct Hentry as [Hstored Hsome].
    apply (to_dict_items_entry reg f attr); try done.
    + intros a Ha. by apply elem_of_attributes.
    + by rewrite (registered_fields_class reg _ inst (descr__get__class_name f inst)).
    + unfold data_get. by rewrite Hstored.
    + left. apply elem_of_attributes.
      rewrite (registered_fields_class reg _ inst (descr__get__class_name f inst)).
      by rewrite Hreg.
Qed.

(** [MapField(columnname="tags")] *)
Definition tags_field : descriptor :=
  {| cls := MapField; columnname := "tags"; default := VNone;
     _wrapper_cls := None; _default_fn := None |}.

Lemma container_get_stores_fallback_witness :
  (cls tags_field = MapField \/ cls tags_field = SetField) /\
  descr__get__ tags_field (blank "Visit") =
    (VDict [], data_set (blank "Visit") "tags" (VDict [])).
Proof.
  assert (Hcls : cls tags_field = MapField \/ cls tags_field = SetField)
    by (left; reflexivity).
  split; [exact Hcls|].
  exact (proj1 (proj1 (container_get_stores_fallback tags_field (blank "Visit") Hcls)
                  eq_refl)).
Defined.

(** ** The Location entity *)

Definition Location_fields : gmap string descriptor :=
  <["username" := named StringField "username"]>
  (<["location_name" := named StringField "location_name"]>
  (<["latitude" := named FloatField "latitude"]>
  (<["longitude" := named FloatField "longitude"]>
  (<["timestamp_created" := named DateTimeField "timestamp_created"]> ∅)))).

Lemma Location_registered (self : Model) :
  class_name self = "Location" ->
  registered_fields the_registry self = Location_fields.
Proof. unfold registered_fields. intros ->. vm_compute. reflexivity. Qed.

(** Evaluates the lookup of a literal attribute name among the fields. *)
Ltac lookup_field :=
  match goal with
  | |- context [Location_fields !! ?k] =>
      let r := eval vm_compute in (Location_fields !! k) in
      change (Location_fields !! k) with r
  end.

Lemma Location_attributes (self : Model) :
  class_name self = "Location" ->
  attributes the_registry self = Location_columns.
Proof.
  intros Hcls. unfold attributes. rewrite (Location_registered self Hcls).
  vm_compute. reflexivity.
Qed.

(** What reading an attribute of a Location returns. *)
Definition Location_read (self : Model) (attr : string) : value :=
  if String.eqb attr "timestamp_created" then
    if truthy (data_get self attr) then data_get self attr else VNone
  else data_get self attr.

Lemma Field__get__no_default (f : descriptor) (self : Model) :
  default f = VNone -> Field__get__ f self = data_get self (columnname f).
Proof.
  intros Hd. unfold Field__get__. rewrite Hd.
  by destruct (data_get self (columnname f)) as [[]| | | | | |].
Qed.

Lemma Location_getattr (self : Model) (attr : string) :
  class_name self = "Location" ->
  attr ∈ Location_columns ->
  getattr the_registry self attr = Ok (Location_read self attr, self).
Proof.
  intros Hcls Hin. unfold getattr. rewrite (Location_registered self Hcls).
  unfold Location_columns in Hin. rewrite !elem_of_cons in Hin.
  destruct Hin as [->|[->|[->|[->|[->|Hin]]]]]; [..|by apply elem_of_nil in Hin];
    lookup_field;
    unfold descr__get__, Location_read, DateTimeField__get__; simpl;
    rewrite ?Field__get__no_default by reflexivity; try reflexivity;
    by destruct (truthy _).
Qed.

(** [to_dict] of a Location: the five attributes, read through their
    descriptors; the entity is left as it was. *)
Definition Location_dict (self : Model) : gmap string value :=
  <["username" := Location_read self "username"]>
  (<["timestamp_created" := Location_read self "timestamp_created"]>
  (<["longitude" := Location_read self "longitude"]>
  (<["location_name" := Location_read self "location_name"]>
  (<["latitude" := Location_read self "latitude"]> ∅)))).

Lemma Location_in_columns (attr : string) :
  contains Location_columns attr = true <-> attr ∈ Location_columns.
Proof.
  unfold contains, Location_columns. simpl. rewrite !elem_of_cons.
  rewrite !orb_true_iff, !String.eqb_eq. rewrite elem_of_nil. 
  intuition discriminate.
Qed.

Lemma Location_to_dict (self : Model) :
  class_name self = "Location" ->
  to_dict the_registry self = Ok (Location_dict self, self).
Proof.
  intros Hcls. unfold to_dict. rewrite (Location_attributes self Hcls).
  unfold Location_columns. cbn [to_dict_items].
  do 5 (rewrite (Location_getattr self _ Hcls)
          by (apply Location_in_columns; reflexivity);
        cbn [rbind fst snd]).
  reflexivity.
Qed.

(** *** Values a Location can hold *)

Definition not_nan (x : float) : Prop := PrimFloat.eqb x x = true.

(** What the setters of the three kinds of Location field let through. *)
Definition text_ok (v : value) : Prop :=
  truthy v = false \/ isinstance v t_basestring = true.
Definition number_ok (v : value) : Prop :=
  v = VNone \/ isinstance v t_float = true.
Definition stamp_ok (v : value) : Prop :=
  v = VNone \/ exists w offset, v = VDateTime {| wall := w; tzinfo := Some offset |}.

Definition column_ok (attr : string) (v : value) : Prop :=
  if String.eqb attr "timestamp_created" then stamp_ok v
  else if String.eqb attr "latitude" || String.eqb attr "longitude" then number_ok v
  else text_ok v.

(** A Location whose storage holds only what its setters store, and no NaN. *)
Definition settled (self : Model) : Prop :=
  class_name self = "Location" /\
  (forall attr, attr ∈ Location_columns -> column_ok attr (data_get self attr)) /\
  (forall attr x, data_get self attr = VFloat x -> not_nan x).

Lemma settled_blank : settled (blank "Location").
Proof.
  split; [done|]. split.
  - intros attr Hin. unfold Location_columns in Hin. rewrite !elem_of_cons in Hin.
    destruct Hin as [->|[->|[->|[->|[->|Hin]]]]]; [..|by apply elem_of_nil in Hin];
      by left.
  - intros attr x Hx. unfold data_get, blank in Hx. simpl in Hx.
    by rewrite lookup_empty in Hx.
Qed.

Lemma py_eq_refl_column (attr : string) (v : value) :
  column_ok attr v -> (forall x, v = VFloat x -> not_nan x) -> py_eq v v = Ok true.
Proof.
  unfold column_ok. intros Hok Hnan.
  destruct (String.eqb attr "timestamp_created").
  - destruct Hok as [->|(w & offset & ->)]; [done|].
    simpl. by rewrite Z.eqb_refl.
  - destruct (String.eqb attr "latitude" || String.eqb attr "longitude").
    + destruct Hok as [->|Hfloat]; [done|].
      destruct v as [[]| | | | | |]; try done. simpl. f_equal. by apply Hnan.
    + destruct Hok as [Hfalse|Hstr].
      * destruct v as [[| [] | z | z | x | s | | |]|l|m|m|l|l|l]; try done; simpl in *.
        -- by rewrite Z.eqb_refl.
        -- by rewrite Z.eqb_refl.
        -- f_equal. by apply Hnan.
        -- by rewrite String.eqb_refl.
        -- by destruct l.
        -- by destruct m.
        -- by destruct m.
        -- by destruct l.
        -- by destruct l.
        -- by destruct l.
      * destruct v as [[]| | | | | |]; try done. simpl. by rewrite String.eqb_refl.
Qed.

Section Construction.
Context `{Json}.

(** What a successful assignment to a Location attribute stores. *)
Lemma Location_setattr (self self' : Model) (key : string) (v : value) :
  class_name self = "Location" ->
  key ∈ Location_columns ->
  setattr the_registry self key v = Ok self' ->
  exists v', self' = data_set self key v' /\ column_ok key v' /\
             (forall x, v' = VFloat x -> v = VFloat x).
Proof.
  intros Hcls Hin. unfold setattr. rewrite (Location_registered self Hcls).
  unfold Location_columns in Hin. rewrite !elem_of_cons in Hin.
  destruct Hin as [->|[->|[->|[->|[->|Hin]]]]]; [..|by apply elem_of_nil in Hin];
    lookup_field; unfold descr__set__; simpl.
  - unfold FloatField__set__, checked__set__, isinstance_base.
    destruct v as [[]| | | | | |]; simpl; try done; intros [= <-]; eexists;
      (repeat split; [(by left) || (by right)|done]).
  - unfold StringField__set__.
    destruct (truthy v) eqn:Htrue; simpl.
    + destruct (isinstance v t_basestring) eqn:Hstr; simpl; [|done].
      intros [= <-]. exists v. repeat split; [by right|done].
    + intros [= <-]. exists v. repeat split; [by left|done].
  - unfold FloatField__set__, checked__set__, isinstance_base.
    destruct v as [[]| | | | | |]; simpl; try done; intros [= <-]; eexists;
      (repeat split; [(by left) || (by right)|done]).
  - unfold DateTimeField__set__.
    destruct (truthy v && negb (isinstance v t_datetime)) eqn:Hbad; [done|].
    destruct v as [[| | | | | |d| |]| | | | | |];
      try (intros [= <-]; exists VNone; repeat split; [by left|done]).
    destruct d as [w [offset|]]; simpl; intros [= <-]; eexists;
      (repeat split; [right; eauto|done]).
  - unfold StringField__set__.
    destruct (truthy v) eqn:Htrue; simpl.
    + destruct (isinstance v t_basestring) eqn:Hstr; simpl; [|done].
      intros [= <-]. exists v. repeat split; [by right|done].
    + intros [= <-]. exists v. repeat split; [by left|done].
Qed.

(** A value the setter lets through unchanged is stored as it is. *)
Lemma Location_setattr_ok (self : Model) (key : string) (v : value) :
  class_name self = "Location" ->
  key ∈ Location_columns ->
  column_ok key v ->
  setattr the_registry self key v = Ok (data_set self key v).
Proof.
  intros Hcls Hin Hok. unfold setattr. rewrite (Location_registered self Hcls).
  unfold Location_columns in Hin. rewrite !elem_of_cons in Hin.
  unfold column_ok in Hok.
  destruct Hin as [->|[->|[->|[->|[->|Hin]]]]]; [..|by apply elem_of_nil in Hin];
    lookup_field; unfold descr__set__; simpl in *.
  - unfold FloatField__set__, checked__set__, isinstance_base. simpl.
    destruct Hok as [->|Hfloat]; [done|].
    destruct v as [[]| | | | | |]; done.
  - unfold StringField__set__. destruct Hok as [->| ->]; [done|].
    by rewrite andb_false_r.
  - unfold FloatField__set__, checked__set__, isinstance_base. simpl.
    destruct Hok as [->|Hfloat]; [done|].
    destruct v as [[]| | | | | |]; done.
  - unfold DateTimeField__set__. by destruct Hok as [->|(w & offset & ->)].
  - unfold StringField__set__. destruct Hok as [->| ->]; [done|].
    by rewrite andb_false_r.
Qed.

Lemma settled_data_set (self : Model) (key : string) (v : value) :
  settled self -> key ∈ Location_columns -> column_ok key v ->
  (forall x, v = VFloat x -> not_nan x) ->
  settled (data_set self key v).
Proof.
  intros (Hcls & Hcols & Hnan) Hin Hok Hv. split; [done|]. split.
  - intros attr Hattr. destruct (decide (key = attr)) as [->|Hne].
    + by rewrite data_get_set_eq.
    + rewrite data_get_set_ne by done. by apply Hcols.
  - intros attr x. destruct (decide (key = attr)) as [->|Hne].
    + rewrite data_get_set_eq. apply Hv.
    + rewrite data_get_set_ne by done. apply Hnan.
Qed.

Lemma init_items_settled (items : list (string * value)) :
  (forall key x, (key, VFloat x) ∈ items -> not_nan x) ->
  forall self self' : Model,
    settled self ->
    init_items the_registry items self = Ok self' ->
    settled self'.
Proof.
  induction items as [|[key v] rest IH]; intros Hitems self self' Hself; simpl.
  - by intros [= <-].
  - rewrite (Location_attributes self (proj1 Hself)).
    destruct (contains Location_columns key) eqn:Hkey; simpl; [|done].
    apply Location_in_columns in Hkey.
    destruct (setattr the_registry self key v) as [self1|] eqn:Hset; simpl; [|done].
    destruct (Location_setattr _ _ _ _ (proj1 Hself) Hkey Hset)
      as (v' & -> & Hok & Hfrom).
    apply IH.
    + intros k x Hin. apply (Hitems k). by right.
    + apply settled_data_set; try done.
      intros x Hx. apply (Hitems key). rewrite (Hfrom x Hx). by left.
Qed.

End Construction.

(** *** The order of iteration does not matter

    [Model.__init__] assigns the items in the order the input dictionary
    yields them, which Python leaves unspecified.  For a Location the
    outcome of a successful construction is the same in every order. *)

Section AnyOrder.
Context `{Json}.

Lemma Location_setattr_elsewhere (self self' other : Model) (key : string) (v : value) :
  class_name self = "Location" -> class_name other = "Location" ->
  key ∈ Location_columns ->
  setattr the_registry self key v = Ok self' ->
  exists v', self' = data_set self key v' /\
             setattr the_registry other key v = Ok (data_set other key v').
Proof.
  intros Hcls Hother Hin. unfold setattr.
  rewrite (Location_registered self Hcls), (Location_registered other Hother).
  unfold Location_columns in Hin. rewrite !elem_of_cons in Hin.
  destruct Hin as [->|[->|[->|[->|[->|Hin]]]]]; [..|by apply elem_of_nil in Hin];
    lookup_field; unfold descr__set__; cbn [cls named];
    unfold FloatField__set__, checked__set__, isinstance_base, StringField__set__,
      DateTimeField__set__; cbn [BASE_TYPE cls named columnname rbind];
    repeat case_match; try done; intros [= <-]; eauto.
Qed.

Lemma setattr_class_name (self self' : Model) (key : string) (v : value) :
  class_name self = "Location" -> key ∈ Location_columns ->
  setattr the_registry self key v = Ok self' -> class_name self' = "Location".
Proof.
  intros Hcls Hin Hset.
  by destruct (Location_setattr _ _ _ _ Hcls Hin Hset) as (v' & -> & _).
Qed.

Lemma init_items_any_order (items items' : list (string * value)) :
  items ≡ₚ items' -> NoDup items.*1 ->
  forall self built : Model,
    class_name self = "Location" ->
    init_items the_registry items self = Ok built ->
    init_items the_registry items' self = Ok built.
Proof.
  induction 1 as [|[key v] l l' Hperm IH|[k1 v1] [k2 v2] l|l1 l2 l3 H12 IH12 H23 IH23];
    intros Hdup self built Hcls.
  - done.
  - cbn [init_items]. rewrite (Location_attributes self Hcls).
    destruct (contains Location_columns key) eqn:Hkey; cbn [negb]; [|done].
    apply Location_in_columns in Hkey.
    destruct (setattr the_registry self key v) as [self1|] eqn:Hset; cbn [rbind]; [|done].
    apply IH.
    + by apply NoDup_cons in Hdup as [_ ?].
    + by apply (setattr_class_name self self1 key v).
  - cbn [init_items]. rewrite (Location_attributes self Hcls).
    destruct (contains Location_columns k2) eqn:Hk2; cbn [negb]; [|done].
    apply Location_in_columns in Hk2.
    destruct (setattr the_registry self k2 v2) as [self2|] eqn:Hset2; cbn [rbind]; [|done].
    pose proof (setattr_class_name _ _ _ _ Hcls Hk2 Hset2) as Hcls2.
    rewrite (Location_attributes self2 Hcls2).
    destruct (contains Location_columns k1) eqn:Hk1; cbn [negb]; [|done].
    apply Location_in_columns in Hk1.
    destruct (setattr the_registry self2 k1 v1) as [self21|] eqn:Hset1; cbn [rbind]; [|done].
    destruct (Location_setattr_elsewhere self2 self21 self k1 v1 Hcls2 Hcls Hk1 Hset1)
      as (v1' & -> & ->). cbn [rbind].
    rewrite (Location_attributes (data_set self k1 v1') Hcls).
    rewrite (proj2 (Location_in_columns k2) Hk2). cbn [negb].
    destruct (Location_setattr_elsewhere self self2 (data_set self k1 v1') k2 v2
                Hcls Hcls Hk2 Hset2) as (v2' & -> & ->). cbn [rbind].
    assert (Hne : k2 <> k1).
    { cbn in Hdup. apply NoDup_cons in Hdup as [Hnotin _].
      intros ->. apply Hnotin. by left. }
    replace (data_set (data_set self k1 v1') k2 v2')
      with (data_set (data_set self k2 v2') k1 v1'); [done|].
    unfold data_set. cbn [class_name _data]. f_equal. by apply insert_insert_ne.
  - intros Hinit. apply IH23.
    + by rewrite <- H12.
    + done.
    + by apply IH12.
Qed.

End AnyOrder.

(** ** Round trip through the plain mapping *)

Definition nan_input : gmap string value := {[ "latitude" := VFloat nan ]}.

(** C5, counterexample: NaN is a float, so the constructor accepts it as a
    latitude; the entity rebuilt from the plain mapping is not equal to the
    original, a NaN being different from itself. *)
Lemma Location_round_trip_fails_on_nan :
  exists L1 m L2,
    Location (Some nan_input) = Ok L1 /\
    to_dict the_registry L1 = Ok (m, L1) /\
    Location (Some m) = Ok L2 /\
    Model__eq__ the_registry L1 L2 = Ok (false, L1, L2).
Proof.
  exists (data_set (blank "Location") "latitude" (VFloat nan)).
  eexists. eexists.
  split; [reflexivity|]. split; [vm_compute; reflexivity|].
  split; vm_compute; reflexivity.
Qed.

(** The iteration order of the mapping [to_dict] returns. *)
Lemma Location_dict_items (username stamp longitude name latitude : value) :
  map_to_list
    (<["username" := username]>
    (<["timestamp_created" := stamp]>
    (<["longitude" := longitude]>
    (<["location_name" := name]>
    (<["latitude" := latitude]> (∅ : gmap string value)))))) =
  [("username", username); ("location_name", name); ("longitude", longitude);
   ("latitude", latitude); ("timestamp_created", stamp)].
Proof. vm_compute. reflexivity. Qed.

Lemma Location_read_ok (self : Model) (attr : string) :
  settled self -> attr ∈ Location_columns ->
  column_ok attr (Location_read self attr) /\
  (forall x, Location_read self attr = VFloat x -> not_nan x).
Proof.
  intros (_ & Hcols & Hnan) Hin. specialize (Hcols attr Hin).
  unfold Location_read, column_ok in *.
  destruct (String.eqb attr "timestamp_created") eqn:Hstamp.
  - destruct Hcols as [->|(w & offset & ->)]; simpl.
    + split; [by left|done].
    + split; [right; eauto|done].
  - split; [done|]. apply Hnan.
Qed.

Section RoundTrip.
Context `{Json}.

Lemma init_items_step (key : string) (v : value) (rest : list (string * value))
    (self : Model) :
  class_name self = "Location" -> key ∈ Location_columns -> column_ok key v ->
  init_items the_registry ((key, v) :: rest) self =
  init_items the_registry rest (data_set self key v).
Proof.
  intros Hcls Hin Hok. cbn [init_items].
  rewrite (Location_attributes self Hcls).
  rewrite (proj2 (Location_in_columns key) Hin).
  by rewrite (Location_setattr_ok self key v Hcls Hin Hok).
Qed.

Lemma Location_settled (d : gmap string value) (L1 : Model) :
  Location (Some d) = Ok L1 ->
  (forall key x, d !! key = Some (VFloat x) -> not_nan x) ->
  settled L1.
Proof.
  unfold Location, Model__init__. intros Hinit Hnan.
  destruct (nonempty (map_to_list d)); simpl in Hinit.
  - apply (init_items_settled (map_to_list d)) with (self := blank "Location");
      [|apply settled_blank|exact Hinit].
    intros key x Hin. apply (Hnan key). by apply elem_of_map_to_list.
  - injection Hinit as <-. apply settled_blank.
Qed.

(** The entity rebuilt from the plain mapping of [L1]. *)
Definition rebuilt (L1 : Model) : Model :=
  data_set (data_set (data_set (data_set (data_set (blank "Location")
    "username" (Location_read L1 "username"))
    "location_name" (Location_read L1 "location_name"))
    "longitude" (Location_read L1 "longitude"))
    "latitude" (Location_read L1 "latitude"))
    "timestamp_created" (Location_read L1 "timestamp_created").

Lemma Location_rebuilt (L1 : Model) :
  settled L1 -> Location (Some (Location_dict L1)) = Ok (rebuilt L1).
Proof.
  intros Hset. unfold Location, Model__init__, Location_dict.
  rewrite Location_dict_items. cbn [nonempty negb].
  rewrite !init_items_step;
    try (apply Location_in_columns; reflexivity);
    try reflexivity;
    by apply Location_read_ok; [|apply Location_in_columns].
Qed.

Lemma Location_read_rebuilt (L1 : Model) (attr : string) :
  settled L1 -> attr ∈ Location_columns ->
  Location_read (rebuilt L1) attr = Location_read L1 attr.
Proof.
  intros Hset Hin.
  assert (Hstored : data_get (rebuilt L1) attr = Location_read L1 attr).
  { unfold Location_columns in Hin. rewrite !elem_of_cons in Hin. unfold rebuilt.
    destruct Hin as [->|[->|[->|[->|[->|Hin]]]]]; [..|by apply elem_of_nil in Hin];
      repeat (rewrite data_get_set_eq || rewrite data_get_set_ne by done); done. }
  unfold Location_read at 1. rewrite Hstored.
  destruct (String.eqb attr "timestamp_created") eqn:Hstamp; [|done].
  unfold Location_read. rewrite Hstamp.
  by destruct (truthy (data_get L1 attr)) eqn:Htrue; [rewrite Htrue|].
Qed.

(** Whatever the order in which the plain mapping is iterated, the second
    construction yields the same entity. *)
Lemma Location_rebuilt_any_order (L1 : Model) (items : list (string * value)) :
  settled L1 ->
  items ≡ₚ map_to_list (Location_dict L1) ->
  init_items the_registry items (blank "Location") = Ok (rebuilt L1).
Proof.
  intros Hset Hperm.
  apply (init_items_any_order (map_to_list (Location_dict L1)) items);
    [done|apply NoDup_fst_map_to_list|done|].
  pose proof (Location_rebuilt L1 Hset) as Hbuilt.
  unfold Location, Model__init__ in Hbuilt.
  by destruct (nonempty (map_to_list (Location_dict L1))) eqn:Hsome;
    [|unfold Location_dict in Hsome; rewrite Location_dict_items in Hsome].
Qed.

(** C5, amended: for every input mapping the Location constructor accepts
    and that holds no NaN, converting the entity to its plain mapping and
    constructing a Location from that mapping succeeds and yields an
    entity equal to the original. *)
Theorem Location_round_trip (d : gmap string value) (L1 : Model) :
  Location (Some d) = Ok L1 ->
  (forall key x, d !! key = Some (VFloat x) -> not_nan x) ->
  exists m L2,
    to_dict the_registry L1 = Ok (m, L1) /\
    Location (Some m) = Ok L2 /\
    Model__eq__ the_registry L1 L2 = Ok (true, L1, L2).
Proof.
  intros Hinit Hnan.
  pose proof (Location_settled d L1 Hinit Hnan) as Hset.
  pose proof (proj1 Hset) as Hcls.
  exists (Location_dict L1), (rebuilt L1).
  split; [by apply Location_to_dict|]. split; [by apply Location_rebuilt|].
  unfold Model__eq__. rewrite Hcls. cbn [class_name rebuilt data_set blank].
  cbn [String.eqb Ascii.eqb Bool.eqb negb].
  rewrite (Location_attributes L1 Hcls). unfold Location_columns.
  assert (Hstep : forall attr rest,
            attr ∈ Location_columns ->
            eq_attrs the_registry (attr :: rest) L1 (rebuilt L1) =
            eq_attrs the_registry rest L1 (rebuilt L1)).
  { intros attr rest Hin. cbn [eq_attrs].
    rewrite (Location_getattr L1 attr Hcls Hin).
    rewrite (Location_getattr (rebuilt L1) attr eq_refl Hin).
    cbn [rbind fst snd]. rewrite (Location_read_rebuilt L1 attr Hset Hin).
    destruct (Location_read_ok L1 attr Hset Hin) as [Hok Hfloat].
    unfold py_ne. by rewrite (py_eq_refl_column attr _ Hok Hfloat). }
  rewrite !Hstep by (apply Location_in_columns; reflexivity).
  reflexivity.
Qed.

End RoundTrip.

Definition alice : Model :=
  data_set (data_set (data_set (data_set (data_set (blank "Location")
    "username" (VStr "alice"))
    "location_name" (VStr "Central Park"))
    "longitude" (VFloat (-0x1.27df861a60d45p+6)%float))
    "latitude" (VFloat 0x1.4647ddca4b125p+5%float))
    "timestamp_created" (VDateTime (replace_tzinfo alice_T0 tzutc)).

Lemma alice_input_no_nan (key : string) (x : float) :
  alice_input !! key = Some (VFloat x) -> not_nan x.
Proof.
  unfold alice_input. rewrite !lookup_insert, lookup_empty.
  repeat case_decide; intros [= <-] || intros [=]; reflexivity.
Qed.

Lemma Location_round_trip_witness :
  Location (Some alice_input) = Ok alice /\
  exists m L2,
    to_dict the_registry alice = Ok (m, alice) /\
    Location (Some m) = Ok L2 /\
    Model__eq__ the_registry alice L2 = Ok (true, alice, L2).
Proof.
  assert (Hinit : Location (Some alice_input) = Ok alice) by (vm_compute; reflexivity).
  split; [exact Hinit|].
  exact (Location_round_trip alice_input alice Hinit alice_input_no_nan).
Defined.

(** ** The repository *)

Lemma Location_bind (self : Model) :
  bind_columns insert_columns (Location_dict self) =
  Ok [("username", Location_read self "username");
      ("latitude", Location_read self "latitude");
      ("longitude", Location_read self "longitude");
      ("timestamp_created", Location_read self "timestamp_created");
      ("location_name", Location_read self "location_name")].
Proof.
  unfold Location_dict.
  generalize (Location_read self "username"), (Location_read self "latitude"),
    (Location_read self "longitude"), (Location_read self "timestamp_created"),
    (Location_read self "location_name").
  intros. vm_compute. reflexivity.
Qed.

(** The row an INSERT of this Location writes. *)
Definition Location_row (self : Model) : Row :=
  [("username", Location_read self "username");
   ("latitude", Location_read self "latitude");
   ("longitude", Location_read self "longitude");
   ("timestamp_created", Location_read self "timestamp_created");
   ("location_name", Location_read self "location_name")].

(** A key that is true packs to a key that is true. *)
Lemma packed_truthy_of_truthy (v : value) :
  truthy v = true -> packed_truthy (_pack_routing_key v) = true.
Proof.
  destruct v as [[| |z| | | | | |]|[]| | | | |]; simpl; try done.
  by destruct (z >? 2 ^ 32).
Qed.

(** *** One execution *)

Definition after_execute (session : Session) (rows' : table -> list Row)
    (statement : SimpleStatement) (params : option (gmap string value)) : Session :=
  {| rows := rows'; outages := tail (outages session);
     executed := (executed session ++ [(statement, params)])%list |}.

Lemma execute_outage (session : Session) (q : cql)
    (params : option (gmap string value)) (key : option value)
    (policy : option retry_policy) :
  hd false (outages session) = true ->
  exists msg,
    SimpleClient_execute session q params key policy =
    (after_execute session (rows session) (_create_statement q key policy) params,
     Raise (StorageError msg)).
Proof.
  intros Hout. unfold SimpleClient_execute, session_execute.
  unfold after_execute.
  destruct (outages session) as [|[] later] eqn:Hlist; simpl in *; try done.
  eauto.
Qed.

Lemma execute_no_outage (session : Session) (q : cql)
    (params : option (gmap string value)) (key : option value)
    (policy : option retry_policy) (rows' : table -> list Row) (found : list Row) :
  hd false (outages session) = false ->
  run_query (rows session) q params = Ok (rows', found) ->
  SimpleClient_execute session q params key policy =
  (after_execute session rows' (_create_statement q key policy) params, Ok found).
Proof.
  intros Hout Hrun. unfold SimpleClient_execute, session_execute.
  cbn [query _create_statement _create_simple_statement]. rewrite Hrun.
  unfold after_execute.
  destruct (outages session) as [|[] later] eqn:Hlist; simpl in *; done.
Qed.

Lemma run_insert_Location (rows : table -> list Row) (t : table) (self : Model) :
  run_query rows (INSERT_INTO t) (Some (Location_dict self)) =
  Ok (put_row t (Location_row self) rows, []).
Proof. unfold run_query. by rewrite Location_bind. Qed.

Section Repository.
Context `{Json}.

(** For a Location the storage mapping and the plain mapping coincide:
    columns are named after attributes and every field serializes to
    itself. *)
Lemma Location_serialize (self : Model) :
  class_name self = "Location" ->
  serialize the_registry self = Ok (Location_dict self, self).
Proof.
  intros Hcls. unfold serialize. rewrite (Location_registered self Hcls).
  replace (map_to_list Location_fields) with
    [("username", named StringField "username");
     ("location_name", named StringField "location_name");
     ("longitude", named FloatField "longitude");
     ("latitude", named FloatField "latitude");
     ("timestamp_created", named DateTimeField "timestamp_created")]
    by (vm_compute; reflexivity).
  cbn [serialize_items].
  do 5 (rewrite (Location_getattr self _ Hcls)
          by (apply Location_in_columns; reflexivity);
        cbn [rbind fst snd descr_serialize cls named Field_serialize columnname]).
  unfold Location_dict.
  generalize (Location_read self "username"), (Location_read self "latitude"),
    (Location_read self "longitude"), (Location_read self "timestamp_created"),
    (Location_read self "location_name").
  intros. vm_compute. reflexivity.
Qed.

(** The statement [create] builds for a table. *)
Definition insert_statement (t : table) (username : value) : SimpleStatement :=
  _create_statement (INSERT_INTO t) (Some username) (Some FallthroughRetryPolicy).

(** C1: for every Location, [create] converts the entity once; when the
    first insert does not fail it executes exactly two statements, an
    INSERT into [location] (the table by username) and then an INSERT into
    [location_by_timestamp], both with that one parameter mapping, which
    is the entity's storage mapping, and both routed by the packed
    username. *)
Theorem create_issues_two_inserts (session : Session) (loc : Model) :
  class_name loc = "Location" ->
  hd false (outages session) = false ->
  exists params username,
    to_dict the_registry loc = Ok (params, loc) /\
    serialize the_registry loc = Ok (params, loc) /\
    getattr the_registry loc "username" = Ok (username, loc) /\
    executed (fst (LocationRepo_create session loc)) =
      (executed session ++
       [(insert_statement location username, Some params);
        (insert_statement location_by_timestamp username, Some params)])%list /\
    routing_key (insert_statement location username) =
      (if truthy username then Some (_pack_routing_key username) else None) /\
    routing_key (insert_statement location_by_timestamp username) =
      routing_key (insert_statement location username).
Proof.
  intros Hcls Hfirst.
  exists (Location_dict loc), (Location_read loc "username").
  assert (Huser : getattr the_registry loc "username"
                  = Ok (Location_read loc "username", loc)).
  { apply Location_getattr; [done|]. apply Location_in_columns. reflexivity. }
  split; [by apply Location_to_dict|]. split; [by apply Location_serialize|].
  split; [exact Huser|]. split.
  - unfold LocationRepo_create. rewrite (Location_to_dict loc Hcls).
    cbn [and_then fst snd]. rewrite Huser. cbn [and_then fst snd].
    rewrite (execute_no_outage session _ _ _ _ _ _ Hfirst
               (run_insert_Location _ location loc)).
    cbn [and_then]. rewrite Huser. cbn [and_then fst snd].
    set (session1 := after_execute session _ _ _).
    destruct (hd false (outages session1)) eqn:Hsecond.
    + destruct (execute_outage session1 (INSERT_INTO location_by_timestamp)
                  (Some (Location_dict loc)) (Some (Location_read loc "username"))
                  (Some FallthroughRetryPolicy) Hsecond) as [msg ->].
      cbn [and_then fst after_execute executed session1].
      by rewrite <- app_assoc.
    + rewrite (execute_no_outage session1 _ _ _ _ _ _ Hsecond
                 (run_insert_Location _ location_by_timestamp loc)).
      cbn [and_then fst after_execute executed session1].
      by rewrite <- app_assoc.
  - split; [|reflexivity].
    unfold insert_statement, _create_statement, _create_simple_statement.
    cbn [routing_key]. destruct (truthy (Location_read loc "username")) eqn:Htrue;
      [|done].
    by rewrite (packed_truthy_of_truthy _ Htrue).
Qed.

End Repository.

Lemma create_issues_two_inserts_witness :
  class_name alice = "Location" /\
  hd false (outages fresh_session) = false /\
  exists params username,
    to_dict the_registry alice = Ok (params, alice) /\
    serialize the_registry alice = Ok (params, alice) /\
    getattr the_registry alice "username" = Ok (username, alice) /\
    executed (fst (LocationRepo_create fresh_session alice)) =
      (executed fresh_session ++
       [(insert_statement location username, Some params);
        (insert_statement location_by_timestamp username, Some params)])%list /\
    routing_key (insert_statement location username) =
      (if truthy username then Some (_pack_routing_key username) else None) /\
    routing_key (insert_statement location_by_timestamp username) =
      routing_key (insert_statement location username).
Proof.
  split; [reflexivity|]. split; [reflexivity|].
  exact (create_issues_two_inserts fresh_session alice eq_refl eq_refl).
Defined.

(** The rows a SELECT by username finds in a table. *)
Definition rows_of (username : value) (stored : list Row) : list Row :=
  filter (fun r => matches_username username r = true) stored.

Definition select_statement (q : cql) : SimpleStatement :=
  _create_statement q None None.

Section Reads.
Context `{Json}.

(** What the two read methods return, in terms of the table they query. *)
Definition as_locations (found : list Row) : result (option (list Model)) :=
  if negb (nonempty found) then Ok None
  else try! built := build_locations found in Ok (Some built).

Lemma LocationRepo_index_result (session : Session) :
  hd false (outages session) = false ->
  LocationRepo_index session =
  (after_execute session (rows session) (select_statement (SELECT_FROM location)) None,
   as_locations (rows session location)).
Proof.
  intros Hout. unfold LocationRepo_index.
  rewrite (execute_no_outage session (SELECT_FROM location) None None None
             (rows session) (rows session location) Hout eq_refl).
  cbn [and_then]. unfold as_locations. by destruct (negb _).
Qed.

Lemma LocationRepo_get_result (session : Session) (username : value) :
  hd false (outages session) = false ->
  LocationRepo_get session username =
  (after_execute session (rows session)
     (select_statement (SELECT_FROM_WHERE_username location_by_timestamp))
     (Some {[ "username" := username ]}),
   as_locations (rows_of username (rows session location_by_timestamp))).
Proof.
  intros Hout. unfold LocationRepo_get.
  rewrite (execute_no_outage session
             (SELECT_FROM_WHERE_username location_by_timestamp)
             (Some {[ "username" := username ]}) None None (rows session)
             (rows_of username (rows session location_by_timestamp)) Hout).
  - cbn [and_then]. unfold as_locations. by destruct (negb _).
  - unfold run_query. by rewrite lookup_singleton_eq.
Qed.

(** Unless its first insert fails, [create] adds the row to [location]. *)
Lemma LocationRepo_create_writes_location (session : Session) (loc : Model) :
  class_name loc = "Location" ->
  hd false (outages session) = false ->
  rows (fst (LocationRepo_create session loc)) location =
    (rows session location ++ [Location_row loc])%list.
Proof.
  intros Hcls Hfirst.
  assert (Huser : getattr the_registry loc "username"
                  = Ok (Location_read loc "username", loc)).
  { apply Location_getattr; [done|]. apply Location_in_columns. reflexivity. }
  unfold LocationRepo_create. rewrite (Location_to_dict loc Hcls).
  cbn [and_then fst snd]. rewrite Huser. cbn [and_then fst snd].
  rewrite (execute_no_outage session _ _ _ _ _ _ Hfirst
             (run_insert_Location _ location loc)).
  cbn [and_then]. rewrite Huser. cbn [and_then fst snd].
  set (session1 := after_execute session _ _ _).
  destruct (hd false (outages session1)) eqn:Hsecond.
  - destruct (execute_outage session1 (INSERT_INTO location_by_timestamp)
                (Some (Location_dict loc)) (Some (Location_read loc "username"))
                (Some FallthroughRetryPolicy) Hsecond) as [msg ->].
    reflexivity.
  - rewrite (execute_no_outage session1 _ _ _ _ _ _ Hsecond
               (run_insert_Location _ location_by_timestamp loc)).
    reflexivity.
Qed.

(** C2: when the insert into [location] succeeds and the insert into
    [location_by_timestamp] fails, [create] ends with that StorageError;
    nothing is executed after the failed statement, the row written into
    [location] stays, [location_by_timestamp] is as it was, and a later
    [get] for a username that had no row there finds none. *)
Theorem create_second_insert_fails (session : Session) (loc : Model)
    (later : list bool) :
  class_name loc = "Location" ->
  outages session = false :: true :: later ->
  exists msg username params,
    getattr the_registry loc "username" = Ok (username, loc) /\
    to_dict the_registry loc = Ok (params, loc) /\
    snd (LocationRepo_create session loc) = Raise (StorageError msg) /\
    executed (fst (LocationRepo_create session loc)) =
      (executed session ++
       [(insert_statement location username, Some params);
        (insert_statement location_by_timestamp username, Some params)])%list /\
    rows (fst (LocationRepo_create session loc)) location =
      (rows session location ++ [Location_row loc])%list /\
    rows (fst (LocationRepo_create session loc)) location_by_timestamp =
      rows session location_by_timestamp /\
    outages (fst (LocationRepo_create session loc)) = later /\
    (forall wanted,
       rows_of wanted (rows session location_by_timestamp) = [] ->
       hd false later = false ->
       rows_of wanted
         (rows (fst (LocationRepo_create session loc)) location_by_timestamp) = [] /\
       snd (LocationRepo_get (fst (LocationRepo_create session loc)) wanted) = Ok None).
Proof.
  intros Hcls Hout.
  assert (Huser : getattr the_registry loc "username"
                  = Ok (Location_read loc "username", loc)).
  { apply Location_getattr; [done|]. apply Location_in_columns. reflexivity. }
  assert (Hfirst : hd false (outages session) = false) by (by rewrite Hout).
  pose (session1 := after_execute session (put_row location (Location_row loc)
          (rows session)) (insert_statement location (Location_read loc "username"))
          (Some (Location_dict loc))).
  assert (Hsecond : hd false (outages session1) = true) by (simpl; by rewrite Hout).
  destruct (execute_outage session1 (INSERT_INTO location_by_timestamp)
              (Some (Location_dict loc)) (Some (Location_read loc "username"))
              (Some FallthroughRetryPolicy) Hsecond) as [msg Hfail].
  assert (Hcreate : LocationRepo_create session loc =
            (after_execute session1 (rows session1)
               (insert_statement location_by_timestamp (Location_read loc "username"))
               (Some (Location_dict loc)),
             Raise (StorageError msg))).
  { unfold LocationRepo_create. rewrite (Location_to_dict loc Hcls).
    cbn [and_then fst snd]. rewrite Huser. cbn [and_then fst snd].
    rewrite (execute_no_outage session _ _ _ _ _ _ Hfirst
               (run_insert_Location _ location loc)).
    cbn [and_then]. rewrite Huser. cbn [and_then fst snd].
    fold (insert_statement location (Location_read loc "username")).
    fold session1. by rewrite Hfail. }
  exists msg, (Location_read loc "username"), (Location_dict loc).
  rewrite Hcreate. cbn [fst snd after_execute session1 rows executed outages].
  rewrite Hout. cbn [tail].
  split; [exact Huser|]. split; [by apply Location_to_dict|]. split; [done|].
  split; [by rewrite <- app_assoc|]. split; [done|]. split; [done|]. split; [done|].
  intros wanted Hnone Hlater. split; [exact Hnone|].
  rewrite LocationRepo_get_result
    by (cbn [after_execute outages session1]; rewrite Hout; exact Hlater).
  cbn [snd rows after_execute put_row]. rewrite Hnone. reflexivity.
Qed.

End Reads.

(** A session whose second execution will fail. *)
Definition second_fails : Session :=
  {| rows := fun _ => []; outages := [false; true]; executed := [] |}.

Lemma create_second_insert_fails_witness :
  class_name alice = "Location" /\
  outages second_fails = [false; true] /\
  (exists msg, snd (LocationRepo_create second_fails alice) = Raise (StorageError msg)) /\
  rows (fst (LocationRepo_create second_fails alice)) location = [Location_row alice] /\
  rows (fst (LocationRepo_create second_fails alice)) location_by_timestamp = [] /\
  snd (LocationRepo_get (fst (LocationRepo_create second_fails alice)) (VStr "alice"))
    = Ok None.
Proof.
  split; [reflexivity|]. split; [reflexivity|].
  destruct (create_second_insert_fails second_fails alice [] eq_refl eq_refl)
    as (msg & username & params & _ & _ & Hraise & _ & Hfirst & Hsecond & _ & Hget).
  split; [by exists msg|]. split; [exact Hfirst|]. split; [exact Hsecond|].
  exact (proj2 (Hget (VStr "alice") eq_refl eq_refl)).
Defined.

(** C3, counterexample: on empty tables [index] and [get] return the
    absent marker [None], not an empty sequence. *)
Lemma reads_of_empty_tables_return_None :
  snd (LocationRepo_index fresh_session) = Ok None /\
  snd (LocationRepo_index fresh_session) <> Ok (Some []) /\
  snd (LocationRepo_get fresh_session (VStr "alice")) = Ok None /\
  snd (LocationRepo_get fresh_session (VStr "alice")) <> Ok (Some []).
Proof. repeat split; vm_compute; discriminate. Qed.

Section Absent.
Context `{Json}.

(** C3, amended: [index] returns the absent marker [None], not an empty
    sequence, when the table it scans holds no rows; likewise [get]
    returns [None] when no stored row matches the username. *)
Theorem reads_return_None_when_no_rows (session : Session) :
  hd false (outages session) = false ->
  (rows session location = [] -> snd (LocationRepo_index session) = Ok None) /\
  (forall username,
     rows_of username (rows session location_by_timestamp) = [] ->
     snd (LocationRepo_get session username) = Ok None).
Proof.
  intros Hout. split.
  - intros Hempty. rewrite LocationRepo_index_result by done.
    cbn [snd]. by rewrite Hempty.
  - intros username Hempty. rewrite LocationRepo_get_result by done.
    cbn [snd]. by rewrite Hempty.
Qed.

End Absent.

Lemma reads_return_None_when_no_rows_witness :
  hd false (outages fresh_session) = false /\
  snd (LocationRepo_index fresh_session) = Ok None /\
  snd (LocationRepo_get fresh_session (VStr "alice")) = Ok None.
Proof.
  split; [reflexivity|].
  destruct (reads_return_None_when_no_rows fresh_session eq_refl) as [Hindex Hget].
  split; [exact (Hindex eq_refl)|exact (Hget (VStr "alice") eq_refl)].
Defined.

(** ** Which table [index] reads *)

Definition bob : Model := data_set alice "username" (VStr "bob").

(** The two tables out of step: bob only by username, alice only by time. *)
Definition out_of_step : Session :=
  {| rows := fun t => match t with
                      | location => [Location_row bob]
                      | location_by_timestamp => [Location_row alice]
                      end;
     outages := []; executed := [] |}.

(** [index] as the specification words it: every row of the table by
    timestamp, adapted and rebuilt. *)
Definition index_by_timestamp `{Json} (session : Session) : result (option (list Model)) :=
  try! built := build_locations (rows session location_by_timestamp) in
  Ok (Some built).

(** C4, counterexample: with different rows in the two tables, [index]
    returns the entity of the table by username; the statement it executes
    is a SELECT on [location], and the row of [location_by_timestamp] is
    not in its result. *)
Lemma index_reads_location_table :
  snd (LocationRepo_index out_of_step) = Ok (Some [bob]) /\
  index_by_timestamp out_of_step = Ok (Some [alice]) /\
  snd (LocationRepo_index out_of_step) <> index_by_timestamp out_of_step /\
  map (fun call => query (fst call)) (executed (fst (LocationRepo_index out_of_step)))
    = [SELECT_FROM location].
Proof.
  assert (Hindex : snd (LocationRepo_index out_of_step) = Ok (Some [bob]))
    by (vm_compute; reflexivity).
  assert (Hspec : index_by_timestamp out_of_step = Ok (Some [alice]))
    by (vm_compute; reflexivity).
  split; [exact Hindex|]. split; [exact Hspec|]. split; [|reflexivity].
  rewrite Hindex, Hspec. intros Heq.
  assert (Hname : data_get bob "username" = data_get alice "username")
    by congruence.
  vm_compute in Hname. discriminate.
Qed.

Section IndexTable.
Context `{Json}.

(** C4, amended: [index] performs a full scan of the table by username
    ([location]), adapting and rebuilding each of its rows into a Location
    (with [None] when there is none); that table is thus written by
    [create] and read by [index], and what [location_by_timestamp] holds
    has no bearing on the result of [index]. *)
Theorem index_scans_location (session : Session) :
  hd false (outages session) = false ->
  executed (fst (LocationRepo_index session)) =
    (executed session ++ [(select_statement (SELECT_FROM location), None)])%list /\
  rows (fst (LocationRepo_index session)) = rows session /\
  snd (LocationRepo_index session) =
    (if negb (nonempty (rows session location)) then Ok None
     else try! built := build_locations (rows session location) in Ok (Some built)) /\
  (forall other : Session,
     hd false (outages other) = false ->
     rows other location = rows session location ->
     snd (LocationRepo_index other) = snd (LocationRepo_index session)) /\
  (forall loc : Model,
     class_name loc = "Location" ->
     rows (fst (LocationRepo_create session loc)) location =
       (rows session location ++ [Location_row loc])%list).
Proof.
  intros Hout. rewrite LocationRepo_index_result by done.
  repeat split.
  - intros other Hother Hsame. rewrite LocationRepo_index_result by done.
    cbn [snd]. by rewrite Hsame.
  - intros loc Hcls. by apply LocationRepo_create_writes_location.
Qed.

End IndexTable.

Lemma index_scans_location_witness :
  hd false (outages out_of_step) = false /\
  executed (fst (LocationRepo_index out_of_step)) =
    [(select_statement (SELECT_FROM location), None)] /\
  snd (LocationRepo_index out_of_step) =
    (try! built := build_locations [Location_row bob] in Ok (Some built)).
Proof.
  split; [reflexivity|].
  destruct (index_scans_location out_of_step eq_refl) as (Hexec & _ & Hresult & _ & _).
  split; [exact Hexec|exact Hresult].
Defined.

(** * Further properties of the field layer *)

(** ** What a setter and a getter may touch *)

Section Frames.
Context `{Json}.

Lemma descr__set__writes (f : descriptor) (inst inst' : Model) (v : value) :
  descr__set__ f inst v = Ok inst' ->
  exists stored, inst' = data_set inst (columnname f) stored.
Proof.
  unfold descr__set__, Field__set__, BooleanField__set__, IntegerField__set__,
    FloatField__set__, UuidField__set__, checked__set__, isinstance_base,
    DateTimeField__set__, StringField__set__, MapField__set__, SetField__set__,
    JsonWrappedClassField__set__, JsonDataField__set__, rbind.
  intros Hset. repeat case_match; simplify_eq; eauto.
Qed.

(** A successful assignment, whatever the field class, changes the column
    of that descriptor and nothing else: the other columns and the class of
    the entity are as before, and the column is present afterwards. *)
Theorem setter_writes_only_its_column (f : descriptor) (inst inst' : Model) (v : value) :
  descr__set__ f inst v = Ok inst' ->
  class_name inst' = class_name inst /\
  is_Some (_data inst' !! columnname f) /\
  (forall column, column <> columnname f ->
     _data inst' !! column = _data inst !! column).
Proof.
  intros Hset. destruct (descr__set__writes f inst inst' v Hset) as [stored ->].
  split; [done|]. split.
  - simpl. rewrite lookup_insert_eq. by eexists.
  - intros column Hne. simpl. by rewrite lookup_insert_ne.
Qed.

End Frames.

Lemma setter_writes_only_its_column_witness :
  descr__set__ (named FloatField "latitude") alice (VFloat 1%float)
    = Ok (data_set alice "latitude" (VFloat 1%float)) /\
  _data (data_set alice "latitude" (VFloat 1%float)) !! "username"
    = _data alice !! "username".
Proof.
  assert (Hset : descr__set__ (named FloatField "latitude") alice (VFloat 1%float)
                 = Ok (data_set alice "latitude" (VFloat 1%float))) by reflexivity.
  split; [exact Hset|].
  destruct (setter_writes_only_its_column _ _ _ _ Hset) as (_ & _ & Hframe).
  apply Hframe. discriminate.
Defined.

Lemma descr__get__pure (f : descriptor) (inst : Model) :
  cls f ∉ [MapField; SetField; UuidField] -> snd (descr__get__ f inst) = inst.
Proof.
  intros Hpure. unfold descr__get__.
  destruct (cls f) eqn:Hcls; simpl; try done; exfalso; apply Hpure; set_solver.
Qed.

(** Reading never changes the class of the entity nor any column other than
    the descriptor's own; only Map, Set and UID getters write at all, and
    they do so only when their column holds no non-null value. *)
Theorem getter_writes_at_most_its_column (f : descriptor) (inst : Model) :
  class_name (snd (descr__get__ f inst)) = class_name inst /\
  (forall column, column <> columnname f ->
     _data (snd (descr__get__ f inst)) !! column = _data inst !! column) /\
  (cls f ∉ [MapField; SetField; UuidField] -> snd (descr__get__ f inst) = inst) /\
  (is_None (data_get inst (columnname f)) = false -> snd (descr__get__ f inst) = inst).
Proof.
  split; [apply descr__get__class_name|].
  unfold descr__get__, MapField__get__, SetField__get__, UuidField__get__.
  repeat split.
  - intros column Hne.
    destruct (cls f); simpl; try done;
      destruct (is_None _); try done; destruct (truthy _); simpl;
      by rewrite lookup_insert_ne.
  - apply descr__get__pure.
  - intros Hset. destruct (cls f); simpl; try done; by rewrite Hset.
Qed.

(** ** What the setters store *)

Section Stored.
Context `{Json}.

(** For the base descriptor and the Boolean, Integer, Float, String, UID,
    Map and Set ones, a non-null value that the setter accepts (an
    OrderedMap apart, which a Map field converts) is stored as it is and
    read back as it is, whatever default the descriptor declares. *)
Theorem accepted_value_reads_back (f : descriptor) (inst inst' : Model) (v : value) :
  cls f ∈ [Field; BooleanField; IntegerField; FloatField; StringField; UuidField;
           MapField; SetField] ->
  is_None v = false ->
  (forall m, v <> VOrderedMap m) ->
  descr__set__ f inst v = Ok inst' ->
  inst' = data_set inst (columnname f) v /\
  descr__get__ f inst' = (v, inst').
Proof.
  intros Hin Hsome Hmap Hset.
  assert (Hstored : inst' = data_set inst (columnname f) v).
  { revert Hset. rewrite !elem_of_cons in Hin. unfold descr__set__.
    destruct Hin as [->|[->|[->|[->|[->|[->|[->|[->|Hin]]]]]]]];
      [..|by apply elem_of_nil in Hin];
      unfold Field__set__, BooleanField__set__, IntegerField__set__,
        FloatField__set__, UuidField__set__, checked__set__, isinstance_base,
        StringField__set__, MapField__set__, SetField__set__, rbind;
      intros Hset; repeat case_match; simplify_eq; try done; try congruence;
      exfalso; by eapply Hmap. }
  split; [exact Hstored|]. subst inst'.
  rewrite !elem_of_cons in Hin. unfold descr__get__.
  destruct Hin as [->|[->|[->|[->|[->|[->|[->|[->|Hin]]]]]]]];
    [..|by apply elem_of_nil in Hin];
    unfold Field__get__, MapField__get__, SetField__get__, UuidField__get__;
    rewrite !data_get_set_eq, Hsome; simpl; by rewrite ?data_get_set_eq.
Qed.

(** Whatever is assigned to a Timestamp field, the column afterwards holds
    [None] or a datetime that carries a tzinfo: a false value of any type
    is stored as [None], a true value that is not a datetime is refused
    with an error bearing the column name. *)
Theorem DateTimeField_stores_None_or_aware (f : descriptor) (inst : Model) (v : value) :
  cls f = DateTimeField ->
  (truthy v = false ->
   descr__set__ f inst v = Ok (data_set inst (columnname f) VNone)) /\
  (truthy v = true -> isinstance v t_datetime = false ->
   descr__set__ f inst v =
     Raise (Exception ("Property " ++ columnname f ++ " must be an instance of datetime"))) /\
  (forall inst', descr__set__ f inst v = Ok inst' ->
     stamp_ok (data_get inst' (columnname f))).
Proof.
  intros Hcls. unfold descr__set__. rewrite Hcls. unfold DateTimeField__set__.
  repeat split.
  - intros Hfalse. rewrite Hfalse. simpl. by destruct v as [[]| | | | | |].
  - intros Htrue Hinst. by rewrite Htrue, Hinst.
  - intros inst'. destruct (truthy v && negb (isinstance v t_datetime)); [done|].
    destruct v as [[| | | | | |d| |]| | | | | |];
      try (intros [= <-]; rewrite data_get_set_eq; by left).
    destruct d as [w [offset|]]; simpl; intros [= <-]; rewrite data_get_set_eq;
      right; eauto.
Qed.

(** After any successful assignment to a Map or Set field the column holds
    a non-null value (null is stored as the empty map or set, an OrderedMap
    as a dict with the same entries), and reading the field returns that
    value without writing to the entity. *)
Theorem container_set_then_get (f : descriptor) (inst inst' : Model) (v : value) :
  cls f = MapField \/ cls f = SetField ->
  descr__set__ f inst v = Ok inst' ->
  is_None (data_get inst' (columnname f)) = false /\
  descr__get__ f inst' = (data_get inst' (columnname f), inst') /\
  (cls f = MapField -> forall m, v = VOrderedMap m ->
     data_get inst' (columnname f) = VDict m) /\
  (is_None v = true ->
     (cls f = MapField -> data_get inst' (columnname f) = VDict []) /\
     (cls f = SetField -> data_get inst' (columnname f) = VSet [])).
Proof.
  intros Hcls Hset.
  assert (Hstored : is_None (data_get inst' (columnname f)) = false /\
            (cls f = MapField -> forall m, v = VOrderedMap m ->
               data_get inst' (columnname f) = VDict m) /\
            (is_None v = true ->
               (cls f = MapField -> data_get inst' (columnname f) = VDict []) /\
               (cls f = SetField -> data_get inst' (columnname f) = VSet []))).
  { revert Hset. unfold descr__set__, MapField__set__, SetField__set__.
    destruct Hcls as [Hc|Hc]; rewrite Hc; intros Hset;
      repeat case_match; simplify_eq; rewrite data_get_set_eq;
      repeat split; try done; try congruence; try (by intros ? ? [= <-]);
      try (intros _ ? [=]). }
  destruct Hstored as (Hsome & Hmap & Hnull).
  repeat split; try done; try (by apply Hnull).
  unfold descr__get__, MapField__get__, SetField__get__.
  destruct Hcls as [Hc|Hc]; rewrite Hc; by rewrite Hsome.
Qed.

(** After any successful assignment to an OpaqueJSON field the column holds
    [None], a dict or a list, never a string: a string is stored as what
    [json.loads] decodes it to.  A false stored value serializes to
    [None]. *)
Theorem JsonDataField_stores_decoded (f : descriptor) (inst inst' : Model) (v : value) :
  cls f = JsonDataField ->
  descr__set__ f inst v = Ok inst' ->
  (data_get inst' (columnname f) = VNone \/
   isinstance (data_get inst' (columnname f)) t_dict = true \/
   isinstance (data_get inst' (columnname f)) t_list = true) /\
  (forall text, v = VStr text ->
     json_loads text = Ok (data_get inst' (columnname f))) /\
  (truthy (data_get inst' (columnname f)) = false ->
     descr_serialize f (data_get inst' (columnname f)) = Ok VNone).
Proof.
  intros Hcls. unfold descr__set__, descr_serialize. rewrite Hcls.
  unfold JsonDataField__set__, JsonDataField_serialize, rbind. intros Hset.
  split; [|split].
  - repeat case_match; simplify_eq; rewrite data_get_set_eq; try (by left);
      match goal with
      | Hn : negb _ = false |- _ =>
          apply negb_false_iff in Hn; rewrite ?orb_true_iff in Hn
      end; try tauto; try (by destruct_or!; try done; right; tauto).
  - intros text ->. repeat case_match; simplify_eq.
    by rewrite data_get_set_eq.
  - by intros ->.
Qed.

End Stored.

Lemma getter_writes_at_most_its_column_witness :
  snd (descr__get__ tags_field alice) = data_set alice "tags" (VDict []) /\
  _data (snd (descr__get__ tags_field alice)) !! "username" = _data alice !! "username".
Proof.
  split; [reflexivity|].
  destruct (getter_writes_at_most_its_column tags_field alice) as (_ & Hframe & _).
  apply Hframe. discriminate.
Defined.

Lemma accepted_value_reads_back_witness :
  descr__set__ (named StringField "username") alice (VStr "carol")
    = Ok (data_set alice "username" (VStr "carol")) /\
  descr__get__ (named StringField "username") (data_set alice "username" (VStr "carol"))
    = (VStr "carol", data_set alice "username" (VStr "carol")).
Proof.
  assert (Hset : descr__set__ (named StringField "username") alice (VStr "carol")
                 = Ok (data_set alice "username" (VStr "carol"))) by reflexivity.
  split; [exact Hset|].
  refine (proj2 (accepted_value_reads_back (named StringField "username") alice
                   (data_set alice "username" (VStr "carol")) (VStr "carol")
                   _ eq_refl _ Hset)).
  - apply list_elem_of_lookup_2 with 4%nat. reflexivity.
  - discriminate.
Defined.

Lemma DateTimeField_stores_None_or_aware_witness :
  cls (named DateTimeField "timestamp_created") = DateTimeField /\
  descr__set__ (named DateTimeField "timestamp_created") alice (VStr "")
    = Ok (data_set alice "timestamp_created" VNone).
Proof.
  split; [reflexivity|].
  exact (proj1 (DateTimeField_stores_None_or_aware
                  (named DateTimeField "timestamp_created") alice (VStr "") eq_refl)
           eq_refl).
Defined.

Lemma container_set_then_get_witness :
  descr__set__ tags_field alice (VOrderedMap [(SStr "k", SInt 1)])
    = Ok (data_set alice "tags" (VDict [(SStr "k", SInt 1)])) /\
  descr__get__ tags_field (data_set alice "tags" (VDict [(SStr "k", SInt 1)]))
    = (data_get (data_set alice "tags" (VDict [(SStr "k", SInt 1)])) "tags",
       data_set alice "tags" (VDict [(SStr "k", SInt 1)])).
Proof.
  assert (Hset : descr__set__ tags_field alice (VOrderedMap [(SStr "k", SInt 1)])
                 = Ok (data_set alice "tags" (VDict [(SStr "k", SInt 1)])))
    by reflexivity.
  split; [exact Hset|].
  exact (proj1 (proj2 (container_set_then_get tags_field alice _ _
                         (or_introl eq_refl) Hset))).
Defined.

(** [JsonDataField(columnname="payload")] *)
Definition payload_field : descriptor :=
  {| cls := JsonDataField; columnname := "payload"; default := VNone;
     _wrapper_cls := None; _default_fn := None |}.

Lemma JsonDataField_stores_decoded_witness :
  descr__set__ payload_field alice (VStr "{}")
    = Ok (data_set alice "payload" (VDict [])) /\
  json_loads "{}" = Ok (data_get (data_set alice "payload" (VDict [])) "payload").
Proof.
  assert (Hset : descr__set__ payload_field alice (VStr "{}")
                 = Ok (data_set alice "payload" (VDict []))) by reflexivity.
  split; [exact Hset|].
  exact (proj1 (proj2 (JsonDataField_stores_decoded payload_field alice _ _
                         eq_refl Hset)) "{}" eq_refl).
Defined.

(** * Further properties of the entity base class *)

Lemma contains_elem_of (l : list string) (key : string) :
  contains l key = true <-> key ∈ l.
Proof.
  unfold contains. rewrite existsb_exists. split.
  - intros (x & Hin & Heq). apply String.eqb_eq in Heq. subst x.
    by apply list_elem_of_In.
  - intros Hin. exists key. split; [by apply list_elem_of_In|apply String.eqb_refl].
Qed.

Lemma attributes_class (reg : gmap string (gmap string descriptor)) (a b : Model) :
  class_name a = class_name b -> attributes reg a = attributes reg b.
Proof. intros Hsame. unfold attributes. by rewrite (registered_fields_class reg a b). Qed.

Section Constructor.
Context `{Json}.

Lemma init_items_inv (reg : gmap string (gmap string descriptor))
    (items : list (string * value)) :
  forall self built : Model,
    init_items reg items self = Ok built ->
    class_name built = class_name self /\
    (forall key v, (key, v) ∈ items -> is_Some (registered_fields reg self !! key)) /\
    (forall column,
       (forall key v f, (key, v) ∈ items ->
          registered_fields reg self !! key = Some f -> columnname f <> column) ->
       _data built !! column = _data self !! column).
Proof.
  induction items as [|[key v] rest IH]; intros self built; simpl.
  - intros [= <-]. split; [done|]. split; [|done].
    intros key v Hin. by apply elem_of_nil in Hin.
  - destruct (contains (attributes reg self) key) eqn:Hkey; simpl; [|done].
    apply contains_elem_of, elem_of_attributes in Hkey. destruct Hkey as [f Hf].
    unfold setattr. rewrite Hf.
    destruct (descr__set__ f self v) as [self1|] eqn:Hset; simpl; [|done].
    intros Hrest.
    destruct (descr__set__writes f self self1 v Hset) as [stored Hstored].
    assert (Hcls : class_name self1 = class_name self) by (by rewrite Hstored).
    assert (Hframe : forall column, column <> columnname f ->
              _data self1 !! column = _data self !! column).
    { intros column Hne. rewrite Hstored. simpl. by rewrite lookup_insert_ne. }
    destruct (IH self1 built Hrest) as (Hcls' & Hkeys & Hcols).
    rewrite (registered_fields_class reg self1 self Hcls) in Hkeys, Hcols.
    split; [congruence|]. split.
    + intros k x Hin. apply elem_of_cons in Hin as [[= -> ->]|Hin]; [by eexists|eauto].
    + intros column Hother. rewrite Hcols.
      * apply Hframe. intros ->. apply (Hother key v f); [by left|done|done].
      * intros k x g Hin. apply (Hother k x g). by right.
Qed.

(** [Model.__init__] succeeds only if every key of the input is a registered
    attribute of the class; the entity it builds has the class asked for,
    and no column other than those of the descriptors of the given keys is
    set.  With a key that is not registered the construction raises. *)
Theorem construction_needs_registered_keys
    (reg : gmap string (gmap string descriptor)) (name : string)
    (data : gmap string value) :
  (forall built, Model__init__ reg name (Some data) = Ok built ->
     class_name built = name /\
     (forall key, is_Some (data !! key) ->
        is_Some (registered_fields reg (blank name) !! key)) /\
     (forall column,
        (forall key f, is_Some (data !! key) ->
           registered_fields reg (blank name) !! key = Some f ->
           columnname f <> column) ->
        _data built !! column = None)) /\
  (forall key, is_Some (data !! key) ->
     registered_fields reg (blank name) !! key = None ->
     exists e, Model__init__ reg name (Some data) = Raise e).
Proof.
  assert (Hok : forall built, Model__init__ reg name (Some data) = Ok built ->
     class_name built = name /\
     (forall key, is_Some (data !! key) ->
        is_Some (registered_fields reg (blank name) !! key)) /\
     (forall column,
        (forall key f, is_Some (data !! key) ->
           registered_fields reg (blank name) !! key = Some f ->
           columnname f <> column) ->
        _data built !! column = None)).
  { intros built. unfold Model__init__.
    destruct (nonempty (map_to_list data)) eqn:Hsome; simpl.
    - intros Hinit.
      destruct (init_items_inv reg (map_to_list data) (blank name) built Hinit)
        as (Hcls & Hkeys & Hcols).
      split; [done|]. split.
      + intros key [v Hv]. apply (Hkeys key v). by apply elem_of_map_to_list.
      + intros column Hother. rewrite Hcols; [done|].
        intros key v f Hin. apply Hother. exists v. by apply elem_of_map_to_list.
    - intros [= <-]. split; [done|]. split; [|done].
      intros key [v Hv]. apply elem_of_map_to_list in Hv.
      destruct (map_to_list data); [by apply elem_of_nil in Hv|done]. }
  split; [exact Hok|].
  intros key Hkey Hnone.
  destruct (Model__init__ reg name (Some data)) as [built|e] eqn:Hinit; [|by exists e].
  destruct (Hok built eq_refl) as (_ & Hkeys & _).
  destruct (Hkeys key Hkey) as [f Hf]. congruence.
Qed.

End Constructor.

Lemma construction_needs_registered_keys_witness :
  is_Some (({[ "altitude" := VFloat 1%float ]} : gmap string value) !! "altitude") /\
  registered_fields the_registry (blank "Location") !! "altitude" = None /\
  exists e, Location (Some {[ "altitude" := VFloat 1%float ]}) = Raise e.
Proof.
  assert (Hkey : is_Some (({[ "altitude" := VFloat 1%float ]} : gmap string value)
                            !! "altitude")) by (eexists; reflexivity).
  assert (Hnone : registered_fields the_registry (blank "Location") !! "altitude" = None)
    by (vm_compute; reflexivity).
  split; [exact Hkey|]. split; [exact Hnone|].
  exact (proj2 (construction_needs_registered_keys the_registry "Location" _)
           "altitude" Hkey Hnone).
Defined.

(** ** Conversion to a plain mapping *)



(** ** The registry *)






(** * Further properties of the row adapter *)





(** * Further properties of Location entities *)

(** Two values that the setters of one Location column store can always be
    compared: no comparison of a naive with an aware datetime arises. *)
Lemma py_eq_column_total (attr : string) (v1 v2 : value) :
  column_ok attr v1 -> column_ok attr v2 -> exists same, py_eq v1 v2 = Ok same.
Proof.
  unfold column_ok.
  destruct (String.eqb attr "timestamp_created").
  - intros [->|(w1 & o1 & ->)] [->|(w2 & o2 & ->)]; simpl; eauto.
  - destruct (String.eqb attr "latitude" || String.eqb attr "longitude").
    + unfold number_ok. intros H1 H2.
      destruct v1 as [[]| | | | | |]; destruct v2 as [[]| | | | | |];
        try (destruct H1 as [H1|H1]; discriminate H1);
        try (destruct H2 as [H2|H2]; discriminate H2);
        simpl; eauto.
    + unfold text_ok. intros H1 H2.
      destruct v1 as [[| | | | | |d1| |]|[|]|[|]|[|]|[|]|[|]|[|]];
        try (destruct H1 as [H1|H1]; discriminate H1);
        destruct v2 as [[| | | | | |d2| |]|[|]|[|]|[|]|[|]|[|]|[|]];
        try (destruct H2 as [H2|H2]; discriminate H2);
        simpl; eauto;
        unfold scalar_eq; simpl; repeat case_match; eauto.
Qed.

Section LocationEquality.
Context `{Json}.

Lemma Location_eq_attrs (attrs : list string) (a b : Model) :
  class_name a = "Location" -> class_name b = "Location" ->
  (forall attr, attr ∈ attrs -> attr ∈ Location_columns) ->
  (forall attr, attr ∈ attrs ->
     exists same, py_eq (Location_read a attr) (Location_read b attr) = Ok same) ->
  exists same,
    eq_attrs the_registry attrs a b = Ok (same, a, b) /\
    (same = true <->
     forall attr, attr ∈ attrs ->
       py_eq (Location_read a attr) (Location_read b attr) = Ok true).
Proof.
  intros Ha Hb. induction attrs as [|attr rest IH]; intros Hcols Htotal.
  - exists true. split; [done|]. split; [|done].
    intros _ attr Hin. by apply elem_of_nil in Hin.
  - cbn [eq_attrs].
    rewrite (Location_getattr a attr Ha) by (apply Hcols; by left).
    rewrite (Location_getattr b attr Hb) by (apply Hcols; by left).
    cbn [rbind fst snd]. unfold py_ne.
    destruct (Htotal attr) as [same Hsame]; [by left|]. rewrite Hsame.
    cbn [rbind]. destruct same; cbn [negb].
    + destruct IH as (rest_same & Hrun & Hiff).
      { intros x Hx. apply Hcols. by right. }
      { intros x Hx. apply Htotal. by right. }
      exists rest_same. split; [exact Hrun|]. rewrite Hiff. split.
      * intros Hall x Hx. apply elem_of_cons in Hx as [->|Hx]; [done|by apply Hall].
      * intros Hall x Hx. apply Hall. by right.
    + exists false. split; [done|]. split; [done|].
      intros Hall. specialize (Hall attr). rewrite Hsame in Hall.
      by discriminate Hall; left.
Qed.

(** Comparing two Locations never raises and changes neither of them; the
    result is True exactly when the five attributes compare equal one by
    one, [!=] answers the opposite, and a Location equals itself. *)
Theorem Location_eq_attributewise (a b : Model) :
  settled a -> settled b ->
  exists same,
    Model__eq__ the_registry a b = Ok (same, a, b) /\
    Model__ne__ the_registry a b = Ok (negb same, a, b) /\
    (same = true <->
     forall attr, attr ∈ Location_columns ->
       py_eq (Location_read a attr) (Location_read b attr) = Ok true) /\
    Model__eq__ the_registry a a = Ok (true, a, a).
Proof.
  intros Hsa Hsb.
  pose proof (proj1 Hsa) as Ha. pose proof (proj1 Hsb) as Hb.
  assert (Heq : forall x y, class_name x = "Location" -> class_name y = "Location" ->
            Model__eq__ the_registry x y = eq_attrs the_registry Location_columns x y).
  { intros x y Hx Hy. unfold Model__eq__. rewrite Hx, Hy. cbn [String.eqb Ascii.eqb
      Bool.eqb negb]. by rewrite (Location_attributes x Hx). }
  destruct (Location_eq_attrs Location_columns a b Ha Hb) as (same & Hrun & Hiff);
    [done| |].
  { intros attr Hin.
    apply (py_eq_column_total attr); by apply Location_read_ok. }
  exists same. split; [by rewrite Heq|]. split; [|split; [exact Hiff|]].
  - unfold Model__ne__. rewrite Heq by done. by rewrite Hrun.
  - rewrite Heq by done.
    destruct (Location_eq_attrs Location_columns a a Ha Ha) as (refl & Hrefl & Hrefl_iff);
      [done| |].
    { intros attr Hin.
      apply (py_eq_column_total attr); by apply Location_read_ok. }
    rewrite Hrefl. repeat f_equal. apply Hrefl_iff. intros attr Hin.
    destruct (Location_read_ok a attr Hsa Hin) as [Hok Hfloat].
    by apply (py_eq_refl_column attr).
Qed.

End LocationEquality.

Lemma alice_settled : settled alice.
Proof.
  apply (Location_settled alice_input); [vm_compute; reflexivity|].
  apply alice_input_no_nan.
Qed.

Lemma Location_eq_attributewise_witness :
  settled alice /\ Model__eq__ the_registry alice alice = Ok (true, alice, alice).
Proof.
  split; [exact alice_settled|].
  destruct (Location_eq_attributewise alice alice alice_settled alice_settled)
    as (same & _ & _ & _ & Hrefl).
  exact Hrefl.
Defined.

(** * Further properties of the repository *)

Section RepositoryWrites.
Context `{Json}.

Lemma Location_username (loc : Model) :
  class_name loc = "Location" ->
  getattr the_registry loc "username" = Ok (Location_read loc "username", loc).
Proof.
  intros Hcls. apply Location_getattr; [done|]. apply Location_in_columns. reflexivity.
Qed.



(** When the first insert fails, [create] ends with that StorageError after
    one statement: the insert into [location_by_timestamp] is never
    attempted and neither table changes. *)
Theorem create_first_insert_fails (session : Session) (loc : Model) :
  class_name loc = "Location" ->
  hd false (outages session) = true ->
  (exists msg, snd (LocationRepo_create session loc) = Raise (StorageError msg)) /\
  rows (fst (LocationRepo_create session loc)) = rows session /\
  executed (fst (LocationRepo_create session loc)) =
    (executed session ++
     [(insert_statement location (Location_read loc "username"),
       Some (Location_dict loc))])%list /\
  outages (fst (LocationRepo_create session loc)) = tail (outages session).
Proof.
  intros Hcls Hfirst. unfold LocationRepo_create.
  rewrite (Location_to_dict loc Hcls). cbn [and_then fst snd].
  rewrite (Location_username loc Hcls). cbn [and_then fst snd].
  destruct (execute_outage session (INSERT_INTO location)
              (Some (Location_dict loc)) (Some (Location_read loc "username"))
              (Some FallthroughRetryPolicy) Hfirst) as [msg ->].
  cbn [and_then fst snd]. split; [by exists msg|]. done.
Qed.


End RepositoryWrites.

(** A session whose next execution fails. *)
Definition first_fails : Session :=
  {| rows := fun _ => []; outages := [true]; executed := [] |}.

Lemma create_first_insert_fails_witness :
  class_name alice = "Location" /\
  hd false (outages first_fails) = true /\
  rows (fst (LocationRepo_create first_fails alice)) = rows first_fails.
Proof.
  split; [reflexivity|]. split; [reflexivity|].
  exact (proj1 (proj2 (create_first_insert_fails first_fails alice eq_refl eq_refl))).
Defined.


Section RepositoryReads.
Context `{Json}.

(** A read executes one statement and never changes a table, whether it
    succeeds or not; when the execution fails, the StorageError reaches the
    caller of [index] and of [get]. *)
Theorem reads_leave_tables_unchanged (session : Session) (username : value) :
  rows (fst (LocationRepo_index session)) = rows session /\
  rows (fst (LocationRepo_get session username)) = rows session /\
  executed (fst (LocationRepo_index session)) =
    (executed session ++ [(select_statement (SELECT_FROM location), None)])%list /\
  executed (fst (LocationRepo_get session username)) =
    (executed session ++
     [(select_statement (SELECT_FROM_WHERE_username location_by_timestamp),
       Some {[ "username" := username ]})])%list /\
  (hd false (outages session) = true ->
   (exists msg, snd (LocationRepo_index session) = Raise (StorageError msg)) /\
   (exists msg, snd (LocationRepo_get session username) = Raise (StorageError msg))).
Proof.
  destruct (hd false (outages session)) eqn:Hout.
  - unfold LocationRepo_index, LocationRepo_get.
    destruct (execute_outage session (SELECT_FROM location) None None None Hout)
      as [msg ->].
    destruct (execute_outage session (SELECT_FROM_WHERE_username location_by_timestamp)
                (Some {[ "username" := username ]}) None None Hout) as [msg' Hget].
    rewrite Hget. cbn [and_then fst snd after_execute rows executed].
    repeat split; try done.
    + by exists msg.
    + by exists msg'.
  - rewrite (LocationRepo_index_result session Hout).
    rewrite (LocationRepo_get_result session username Hout).
    repeat split; done.
Qed.

End RepositoryReads.

Lemma reads_leave_tables_unchanged_witness :
  hd false (outages first_fails) = true /\
  (exists msg, snd (LocationRepo_index first_fails) = Raise (StorageError msg)) /\
  (exists msg,
     snd (LocationRepo_get first_fails (VStr "alice")) = Raise (StorageError msg)).
Proof.
  split; [reflexivity|].
  exact (proj2 (proj2 (proj2 (proj2
           (reads_leave_tables_unchanged first_fails (VStr "alice"))))) eq_refl).
Defined.

(** ** Reading back what was created *)


Section ReadBack.
Context `{Json}.



End ReadBack.


(** * Further properties of the storage client *)


